(** * indexed-db-wrapper: a promise interface over IndexedDB requests

    A shallow embedding of [src/index.ts]: the event-to-promise adapter
    [IndexedDBRequestWrapper], the session builder [IndexedDBWrapper.new] and
    the in-memory mock backend [mockImpl], followed by the properties the
    specification states about them; then the test harness of the same file
    ([presentWhatsInTheDatabase] and the promise chain of a test case) and
    further properties of all of these.

    Conventions of the embedding.
    - Effectful code is a state transformer [M W A := W -> A * W] over a world
      [W]; for the mock, the world is the heap of JavaScript arrays it
      allocated, so that the array handed out by [getAll] is the very array
      [add] pushes to.
    - A promise is represented by the state it has once the calls made so far
      have run and the microtask queue is drained.  Reactions registered with
      [then]/[catch] therefore appear as a case analysis on that state.
    - A request carries the list of events its backend is going to deliver to
      it.  The mock delivers none: its proxies call the handlers at the moment
      they are assigned. *)

From stdpp Require Import base option list strings.
From Stdlib Require Import ZArith Lia.

Open Scope string_scope.

#[local] Set Warnings "-register-all".

(** ** JavaScript values *)

Inductive value : Type :=
| VUndefined
| VNull
| VBool (b : bool)
| VNumber (n : Z)
| VString (s : string)
| VObject (props : list (string * value))
| VArray (elems : list value).

(** An entry is an object: a list of own properties. *)
Definition entry : Type := list (string * value).

(** [item[key]] on an object: the property's value, [undefined] when absent. *)
Fixpoint get_prop (item : entry) (key : string) : value :=
  match item with
  | [] => VUndefined
  | (k, v) :: rest => if String.eqb k key then v else get_prop rest key
  end.

(** ** The state monad of effectful code *)

Definition M (W A : Type) : Type := W -> A * W.

Definition ret {W A} (a : A) : M W A := fun w => (a, w).

Definition bind {W A B} (c : M W A) (k : A -> M W B) : M W B :=
  fun w => let '(a, w') := c w in k a w'.

Notation "x <- c ;; k" := (bind c (fun x => k))
  (at level 100, c at next level, right associativity).

(** [iterable.map(f)] for an effectful [f]: left to right. *)
Fixpoint mapM {W A B} (f : A -> M W B) (xs : list A) : M W (list B) :=
  match xs with
  | [] => ret []
  | x :: rest => y <- f x ;; ys <- mapM f rest ;; ret (y :: ys)
  end.

(** ** Promises *)

Inductive promise (A : Type) : Type :=
| Pending
| Fulfilled (v : A)
| Rejected (reason : value).
Arguments Pending {A}.
Arguments Fulfilled {A} v.
Arguments Rejected {A} reason.

Definition is_pending {A} (p : promise A) : bool :=
  match p with Pending => true | _ => false end.

(** The [resolve] and [reject] functions handed to a promise's executor: they
    act on a pending promise only. *)
Definition resolve {A} (v : A) (p : promise A) : promise A :=
  match p with Pending => Fulfilled v | _ => p end.

Definition reject {A} (reason : value) (p : promise A) : promise A :=
  match p with Pending => Rejected reason | _ => p end.

(** [Promise.all] of promises whose state is known: rejected with the reason of
    the first rejected member, else pending while a member is pending, else
    fulfilled with the members' values in order.  Members that are settled
    when [Promise.all] is called (always so on the mock) have their reactions
    run in index order, which is why the first rejected member wins. *)
Fixpoint first_rejection {A} (ps : list (promise A)) : option value :=
  match ps with
  | [] => None
  | Rejected r :: _ => Some r
  | _ :: rest => first_rejection rest
  end.

Fixpoint all_values {A} (ps : list (promise A)) : option (list A) :=
  match ps with
  | [] => Some []
  | Fulfilled v :: rest =>
      match all_values rest with Some vs => Some (v :: vs) | None => None end
  | _ :: _ => None
  end.

Definition Promise_all {A} (ps : list (promise A)) : promise (list A) :=
  match first_rejection ps with
  | Some r => Rejected r
  | None => match all_values ps with
            | Some vs => Fulfilled vs
            | None => Pending
            end
  end.

(** [p.then(k)]: [k] runs on the value of a fulfilled [p]; a rejection is
    passed on; nothing happens while [p] is pending. *)
Definition then_ {W A B} (p : promise A) (k : A -> M W (promise B))
  : M W (promise B) :=
  match p with
  | Pending => ret Pending
  | Fulfilled v => k v
  | Rejected r => ret (Rejected r)
  end.

(** ** Requests *)

(** [MockSetFunctionOptions] of the mock; [error] is optional in the source. *)
Record MockSetFunctionOptions : Type := {
  succeed : bool;
  error : option string
}.

(** A request object.  [result] is the value it carries when its events are
    delivered.  [isIDBOpenDBRequest] is the outcome of
    [idbRequest instanceof IDBOpenDBRequest].  [proxy] is [Some o] for
    [new Proxy(target, { set: set(o) })], the only proxy handler of the
    repository, and [None] for an ordinary event target, which stores the
    handlers assigned to it.  [events] are the events the backend will deliver,
    each with the name of the handler property it goes to and its argument. *)
Record IDBRequest (R St : Type) : Type := {
  result : R;
  isIDBOpenDBRequest : bool;
  proxy : option MockSetFunctionOptions;
  onerror : option (value -> St -> St);
  onsuccess : option (value -> St -> St);
  onupgradeneeded : option (value -> St -> St);
  events : list (string * value)
}.
Arguments result {R St} _.
Arguments isIDBOpenDBRequest {R St} _.
Arguments proxy {R St} _.
Arguments onerror {R St} _.
Arguments onsuccess {R St} _.
Arguments onupgradeneeded {R St} _.
Arguments events {R St} _.

(** The template literal [`We messed up: ${error}`]. *)
Definition error_message (error : option string) : string :=
  "We messed up: " ++ match error with Some e => e | None => "undefined" end.

(** The mock's [set] trap: [set(mockSetFuncOpts)(_obj, name, func)].  A handler
    is a function of its argument acting on a state [St]; [func()] passes
    [undefined]. *)
Definition set {St} (mockSetFuncOpts : MockSetFunctionOptions)
    (name : string) (func : value -> St -> St) (st : St) : St :=
  let st1 :=
    if String.eqb name "onsuccess" && succeed mockSetFuncOpts
    then func VUndefined st else st in
  let st2 :=
    if String.eqb name "onerror" && negb (succeed mockSetFuncOpts)
    then func (VObject [("error",
                         VString (error_message (error mockSetFuncOpts)))]) st1
    else st1 in
  st2.

(** Storing a handler in an ordinary event target. *)
Definition store_handler {R St} (name : string) (func : value -> St -> St)
    (req : IDBRequest R St) : IDBRequest R St :=
  if String.eqb name "onerror" then
    {| result := result req; isIDBOpenDBRequest := isIDBOpenDBRequest req;
       proxy := proxy req; onerror := Some func; onsuccess := onsuccess req;
       onupgradeneeded := onupgradeneeded req; events := events req |}
  else if String.eqb name "onsuccess" then
    {| result := result req; isIDBOpenDBRequest := isIDBOpenDBRequest req;
       proxy := proxy req; onerror := onerror req; onsuccess := Some func;
       onupgradeneeded := onupgradeneeded req; events := events req |}
  else if String.eqb name "onupgradeneeded" then
    {| result := result req; isIDBOpenDBRequest := isIDBOpenDBRequest req;
       proxy := proxy req; onerror := onerror req; onsuccess := onsuccess req;
       onupgradeneeded := Some func; events := events req |}
  else req.

(** The assignment [idbRequest.name = func].  On a proxy the trap runs and the
    target is left alone (the trap returns [true] without forwarding). *)
Definition assign {R St} (name : string) (func : value -> St -> St)
    (req : IDBRequest R St) (st : St) : IDBRequest R St * St :=
  match proxy req with
  | Some opts => (req, set opts name func st)
  | None => (store_handler name func req, st)
  end.

(** The handler stored under a property name. *)
Definition handler_of {R St} (name : string) (req : IDBRequest R St)
  : option (value -> St -> St) :=
  if String.eqb name "onerror" then onerror req
  else if String.eqb name "onsuccess" then onsuccess req
  else if String.eqb name "onupgradeneeded" then onupgradeneeded req
  else None.

(** The backend delivering one event, then all of a request's events. *)
Definition dispatch {R St} (req : IDBRequest R St) (st : St)
    (ev : string * value) : St :=
  match handler_of (fst ev) req with
  | Some func => func (snd ev) st
  | None => st
  end.

Definition deliver {R St} (req : IDBRequest R St) (evs : list (string * value))
    (st : St) : St :=
  fold_left (dispatch req) evs st.

(** ** The event-to-promise adapter *)

Section Adapter.
Context {R W : Type}.

(** The state the adapter's handlers act on: the promise under construction
    and the world. *)
Definition cell : Type := promise R * W.

Definition ObjectStoreConstructor : Type := R -> W -> W.

Definition onerror_handler : value -> cell -> cell :=
  fun event '(p, w) => (reject event p, w).

Definition onsuccess_handler (idbRequest : IDBRequest R cell)
  : value -> cell -> cell :=
  fun _ '(p, w) => (resolve (result idbRequest) p, w).

(** An exception raised by the callback goes to the event dispatcher, not to
    the promise; the callback is a world transformer. *)
Definition onupgradeneeded_handler (idbRequest : IDBRequest R cell)
    (objectStoreConstructor : option ObjectStoreConstructor)
  : value -> cell -> cell :=
  fun _ '(p, w) =>
    let db := result idbRequest in
    match objectStoreConstructor with
    | Some ctor => (p, ctor db w)
    | None => (p, w)
    end.

(** [IndexedDBRequestWrapper(idbRequest, objectStoreConstructor)]: the
    executor of the new promise, run to its end.  Returns the request as the
    assignments left it and the promise with the world. *)
Definition IndexedDBRequestWrapper (idbRequest : IDBRequest R cell)
    (objectStoreConstructor : option ObjectStoreConstructor) (w : W)
  : IDBRequest R cell * cell :=
  let st0 : cell := (Pending, w) in
  let '(req1, st1) := assign "onerror" onerror_handler idbRequest st0 in
  let '(req2, st2) :=
    assign "onsuccess" (onsuccess_handler idbRequest) req1 st1 in
  if isIDBOpenDBRequest idbRequest then
    assign "onupgradeneeded"
      (onupgradeneeded_handler idbRequest objectStoreConstructor) req2 st2
  else (req2, st2).

(** The promise returned by the adapter once the backend has delivered the
    request's events.  The handlers of a request act on that request's promise
    alone, so the order in which the events of different requests are
    delivered does not matter to the promises. *)
Definition wrapped (idbRequest : IDBRequest R cell)
    (objectStoreConstructor : option ObjectStoreConstructor)
  : M W (promise R) :=
  fun w =>
    let '(req, st) :=
      IndexedDBRequestWrapper idbRequest objectStoreConstructor w in
    deliver req (events req) st.
End Adapter.

Arguments cell : clear implicits.
Arguments ObjectStoreConstructor : clear implicits.

(** ** The backend contract *)

(** The outcome of a call that may throw. *)
Inductive completion (A : Type) : Type :=
| Normal (a : A)
| Throw (error : value).
Arguments Normal {A} a.
Arguments Throw {A} error.

(** The objects [new] walks through: [impl.open], [db.transaction],
    [transaction.objectStore], [objectStore.add] and [objectStore.getAll].
    [Key] and [Arr] are the types of the results of an insert and of a query.
    The source guards [db.transaction] and [transaction.objectStore] with
    [try]/[catch]; these two are the calls modelled as able to throw.
    [createObjectStore] is absent ([None]) on an object without that method. *)
Module IDB.

Record IDBObjectStore (W Key Arr : Type) : Type := {
  os_add : entry -> M W (IDBRequest Key (cell Key W));
  os_getAll : M W (IDBRequest Arr (cell Arr W))
}.
Arguments os_add {W Key Arr} _.
Arguments os_getAll {W Key Arr} _.

Record IDBTransaction (W Key Arr : Type) : Type := {
  objectStore : string -> M W (completion (IDBObjectStore W Key Arr))
}.
Arguments objectStore {W Key Arr} _.

Record ObjectStoreWrapper (W : Type) : Type := {
  createIndex : string -> string -> bool -> W -> W
}.
Arguments createIndex {W} _.

Record IDBDatabase (W Key Arr : Type) : Type := {
  transaction :
    list string -> string -> M W (completion (IDBTransaction W Key Arr));
  createObjectStore : option (string -> string -> M W (ObjectStoreWrapper W))
}.
Arguments transaction {W Key Arr} _.
Arguments createObjectStore {W Key Arr} _.

Definition OpenRequest (W Key Arr : Type) : Type :=
  IDBRequest (IDBDatabase W Key Arr) (cell (IDBDatabase W Key Arr) W).

Record IndexedDBFactoryWrapper (W Key Arr : Type) : Type := {
  open : string -> M W (OpenRequest W Key Arr)
}.
Arguments open {W Key Arr} _.

End IDB.
Import IDB.

(** The session object, [IIndexedDBWrapper]. *)
Record IIndexedDBWrapper (W Key Arr : Type) : Type := {
  add : list entry -> M W (promise (list Key));
  getAll : M W (promise Arr)
}.
Arguments add {W Key Arr} _.
Arguments getAll {W Key Arr} _.

(** ** The session builder *)

Section Wrapper.
Context {W Key Arr : Type}.

Definition addRequestGenerator (objectStore : IDBObjectStore W Key Arr)
    (item : entry) : M W (promise Key) :=
  addRequest <- os_add objectStore item ;;
  wrapped addRequest None.

(** The promises [iterable.map(addRequestGenerator)] builds. *)
Definition addRequests (objectStore : IDBObjectStore W Key Arr)
    (iterable : list entry) : M W (list (promise Key)) :=
  mapM (addRequestGenerator objectStore) iterable.

Definition session (objectStore : IDBObjectStore W Key Arr)
  : IIndexedDBWrapper W Key Arr :=
  {| add := fun iterable =>
       promises <- addRequests objectStore iterable ;;
       ret (Promise_all promises);
     getAll :=
       request <- os_getAll objectStore ;;
       wrapped request None |}.

(** The reaction to a fulfilled open: [.then((db) => ...)], with the
    [.catch((error) => reject(error))] that follows it. *)
Definition opened (objectStoreName : string) (db : IDBDatabase W Key Arr)
  : M W (promise (IIndexedDBWrapper W Key Arr)) :=
  t <- transaction db [objectStoreName] "readwrite" ;;
  match t with
  | Throw error => ret (Rejected error)
  | Normal transaction =>
      o <- objectStore transaction objectStoreName ;;
      match o with
      | Throw error => ret (Rejected error)
      | Normal objectStore => ret (Fulfilled (session objectStore))
      end
  end.

(** [IndexedDBWrapper.new(databaseName, objectStoreName,
    objectStoreConstructor, impl)]. *)
Definition new (databaseName objectStoreName : string)
    (objectStoreConstructor :
       ObjectStoreConstructor (IDBDatabase W Key Arr) W)
    (impl : IndexedDBFactoryWrapper W Key Arr)
  : M W (promise (IIndexedDBWrapper W Key Arr)) :=
  request <- open impl databaseName ;;
  p <- wrapped request (Some objectStoreConstructor) ;;
  match p with
  | Pending => ret Pending
  | Fulfilled db => opened objectStoreName db
  | Rejected error => ret (Rejected error)
  end.

(** [toDoListObjectStoreConstructor].  On a handle without
    [createObjectStore] the first call throws a [TypeError] before any
    effect. *)
Definition toDoListObjectStoreConstructor
  : ObjectStoreConstructor (IDBDatabase W Key Arr) W :=
  fun db w =>
    match createObjectStore db with
    | None => w
    | Some create =>
        let '(objectStore, w0) := create "toDoList" "taskTitle" w in
        let w1 := createIndex objectStore "hours" "hours" false w0 in
        let w2 := createIndex objectStore "minutes" "minutes" false w1 in
        let w3 := createIndex objectStore "day" "day" false w2 in
        let w4 := createIndex objectStore "month" "month" false w3 in
        let w5 := createIndex objectStore "year" "year" false w4 in
        createIndex objectStore "notified" "notified" false w5
    end.
End Wrapper.

(** ** The mock backend *)

Module Mock.

Record MockOptions : Type := {
  shouldAdd : option bool;
  shouldGetAll : option bool;
  shouldOpen : option bool;
  key : string
}.

Definition defaultMockOptions : MockOptions :=
  {| shouldAdd := Some true; shouldGetAll := Some true;
     shouldOpen := Some true; key := "taskTitle" |}.

(** [x !== undefined ? x : true]. *)
Definition or_true (x : option bool) : bool :=
  match x with Some b => b | None => true end.

(** The arrays allocated by mock instances; an array is named by its index.
    A query's result is the name of the instance's array, not a copy. *)
Abbreviation World := (list (list entry)).

Definition Request (R : Type) : Type := IDBRequest R (cell R World).

(** [new Proxy(request, { set: set({ succeed, error }) })] around the plain
    object [{ result }]; a proxy around a plain object is not an instance of
    [IDBOpenDBRequest]. *)
Definition Proxy {R St} (result : R) (succeed : bool) (error : string)
  : IDBRequest R St :=
  {| result := result; isIDBOpenDBRequest := false;
     proxy := Some {| succeed := succeed; error := Some error |};
     onerror := None; onsuccess := None; onupgradeneeded := None;
     events := [] |}.

(** What [mockImpl] closes over. *)
Section Instance.
Variables (should_add should_getAll should_open : bool).
Variable (key_field : string).
Variable (items : nat).

Definition getAll : M World (Request nat) :=
    ret (Proxy items should_getAll "getAll").

Definition add (item : entry) : M World (Request value) :=
    fun w =>
      let w' := alter (fun a => (a ++ [item])%list) items w in
      (Proxy (get_prop item key_field) should_add "add", w').

Definition objectStore (_objectStoreName : string)
    : M World (completion (IDBObjectStore World value nat)) :=
    ret (Normal {| os_add := add; os_getAll := getAll |}).

Definition transaction (_objectStoreName : list string) (_mode : string)
    : M World (completion (IDBTransaction World value nat)) :=
    ret (Normal {| IDB.objectStore := objectStore |}).

Definition request : IDBDatabase World value nat :=
    {| IDB.transaction := transaction; createObjectStore := None |}.

Definition open (_databaseName : string)
    : M World (OpenRequest World value nat) :=
    ret (Proxy request should_open "open").
End Instance.

(** [mockImpl(mockOptions = defaultMockOptions)]: [const items = []]
    allocates the instance's array. *)
Definition mockImpl (mockOptions : option MockOptions)
  : M World (IndexedDBFactoryWrapper World value nat) :=
  fun w =>
    let mockOptions := default defaultMockOptions mockOptions in
    let should_add := or_true (shouldAdd mockOptions) in
    let should_getAll := or_true (shouldGetAll mockOptions) in
    let should_open := or_true (shouldOpen mockOptions) in
    let key_field := key mockOptions in
    let items := length w in
    ({| IDB.open :=
          open should_add should_getAll should_open key_field items |},
     (w ++ [[]])%list).

End Mock.

(** ** The sessions of the test cases *)

Definition withMock (mockOptions : option Mock.MockOptions)
  : M Mock.World (promise (IIndexedDBWrapper Mock.World value nat)) :=
  impl <- Mock.mockImpl mockOptions ;;
  new "some_named_database" "toDoList" toDoListObjectStoreConstructor impl.

Definition withWorkingMockedIndexedDB := withMock None.

Definition withBrokenOpen :=
  withMock (Some {| Mock.shouldAdd := None; Mock.shouldGetAll := None;
                    Mock.shouldOpen := Some false; Mock.key := "taskTitle" |}).

Definition withBrokenAdd :=
  withMock (Some {| Mock.shouldAdd := Some false; Mock.shouldGetAll := None;
                    Mock.shouldOpen := None; Mock.key := "taskTitle" |}).

Definition withBrokenGetAll :=
  withMock (Some {| Mock.shouldAdd := None; Mock.shouldGetAll := Some false;
                    Mock.shouldOpen := None; Mock.key := "taskTitle" |}).

(** The item of the test cases, for the identifier [R]. *)
Definition newItem : entry :=
  [("taskTitle", VString "Walk dog #R"); ("hours", VNumber 19);
   ("minutes", VNumber 30); ("day", VNumber 24); ("month", VNumber 11);
   ("year", VNumber 2013); ("notified", VString "no")].

(** A second item, with another title. *)
Definition otherItem : entry :=
  [("taskTitle", VString "Feed cat"); ("hours", VNumber 7);
   ("minutes", VNumber 0); ("day", VNumber 25); ("month", VNumber 11);
   ("year", VNumber 2013); ("notified", VString "yes")].

(** [mock.then((db) => db.add(iterable))] and
    [mock.then((db) => db.add(iterable)).then(() => db.getAll())]. *)
Definition thenAdd {W Key Arr}
    (mock : M W (promise (IIndexedDBWrapper W Key Arr)))
    (iterable : list entry) : M W (promise (list Key)) :=
  p <- mock ;;
  then_ p (fun db => add db iterable).

Definition thenGetAll {W Key Arr}
    (mock : M W (promise (IIndexedDBWrapper W Key Arr))) : M W (promise Arr) :=
  p <- mock ;;
  then_ p (fun db => getAll db).

Definition thenAddThenGetAll {W Key Arr}
    (mock : M W (promise (IIndexedDBWrapper W Key Arr)))
    (iterable : list entry) : M W (promise Arr) :=
  p <- mock ;;
  then_ p (fun db =>
    result <- add db iterable ;;
    then_ result (fun _ => getAll db)).

(** ** Vocabulary of the statements *)

(** The payload the mock passes to [onerror] for the operation [op]. *)
Definition synthetic_error (op : string) : value :=
  VObject [("error", VString (error_message (Some op)))].

(** The toggles and key field an instance is configured with. *)
Definition configured (mockOptions : option Mock.MockOptions)
  : Mock.MockOptions :=
  default Mock.defaultMockOptions mockOptions.

Definition opens (mockOptions : option Mock.MockOptions) : bool :=
  Mock.or_true (Mock.shouldOpen (configured mockOptions)).

Definition adds (mockOptions : option Mock.MockOptions) : bool :=
  Mock.or_true (Mock.shouldAdd (configured mockOptions)).

Definition gets (mockOptions : option Mock.MockOptions) : bool :=
  Mock.or_true (Mock.shouldGetAll (configured mockOptions)).

Definition key_of (mockOptions : option Mock.MockOptions) : string :=
  Mock.key (configured mockOptions).

(** The object store of the instance whose array is [items]. *)
Definition store_of (mockOptions : option Mock.MockOptions) (items : nat)
  : IDBObjectStore Mock.World value nat :=
  {| os_add := Mock.add (adds mockOptions) (key_of mockOptions) items;
     os_getAll := Mock.getAll (gets mockOptions) items |}.

(** The promise of one insert on the mock. *)
Definition inserted (mockOptions : option Mock.MockOptions) (item : entry)
  : promise value :=
  if adds mockOptions then Fulfilled (get_prop item (key_of mockOptions))
  else Rejected (synthetic_error "add").

(** A session over a freshly constructed mock. *)
Definition mockSession (mockOptions : option Mock.MockOptions)
    (databaseName objectStoreName : string)
    (objectStoreConstructor :
       ObjectStoreConstructor (IDBDatabase Mock.World value nat) Mock.World)
  : M Mock.World (promise (IIndexedDBWrapper Mock.World value nat)) :=
  impl <- Mock.mockImpl mockOptions ;;
  new databaseName objectStoreName objectStoreConstructor impl.

(** An ordinary event target after the adapter's assignments. *)
Definition attached {R W} (idbRequest : IDBRequest R (cell R W))
    (objectStoreConstructor : option (ObjectStoreConstructor R W))
  : IDBRequest R (cell R W) :=
  {| result := result idbRequest;
     isIDBOpenDBRequest := isIDBOpenDBRequest idbRequest;
     proxy := proxy idbRequest;
     onerror := Some onerror_handler;
     onsuccess := Some (onsuccess_handler idbRequest);
     onupgradeneeded :=
       if isIDBOpenDBRequest idbRequest
       then Some (onupgradeneeded_handler idbRequest objectStoreConstructor)
       else onupgradeneeded idbRequest;
     events := events idbRequest |}.

(** The outcome the first [onsuccess] or [onerror] event of a list decides. *)
Fixpoint outcome {R} (result : R) (evs : list (string * value)) : promise R :=
  match evs with
  | [] => Pending
  | (name, arg) :: rest =>
      if String.eqb name "onerror" then Rejected arg
      else if String.eqb name "onsuccess" then Fulfilled result
      else outcome result rest
  end.

(** The successive states of the promise while events are delivered, and the
    number of steps at which it leaves [Pending]. *)
Fixpoint states {R W} (req : IDBRequest R (cell R W))
    (evs : list (string * value)) (st : cell R W) : list (promise R) :=
  match evs with
  | [] => []
  | ev :: rest =>
      let st' := dispatch req st ev in
      fst st' :: states req rest st'
  end.

Fixpoint settlements {R} (p : promise R) (ps : list (promise R)) : nat :=
  match ps with
  | [] => 0
  | q :: rest =>
      (if is_pending p && negb (is_pending q) then 1 else 0)
      + settlements q rest
  end.

(** A backend whose open succeeds after an upgrade and whose
    [db.transaction] (when [early]) or [transaction.objectStore] (otherwise)
    throws.  Its world counts the calls of [transaction] and of
    [objectStore]. *)
Module Faulty.

Abbreviation World := (nat * nat)%type.

Definition objectStore (_ : string)
  : M World (completion (IDBObjectStore World value (list entry))) :=
  fun '(t, o) => (Throw (VString "NotFoundError"), (t, S o)).

Definition transaction (early : bool) (_ : list string) (_ : string)
  : M World (completion (IDBTransaction World value (list entry))) :=
  fun '(t, o) =>
    (if early then Throw (VString "InvalidStateError")
     else Normal {| IDB.objectStore := objectStore |},
     (S t, o)).

Definition db (early : bool) : IDBDatabase World value (list entry) :=
  {| IDB.transaction := transaction early; createObjectStore := None |}.

Definition request (early : bool) : OpenRequest World value (list entry) :=
  {| result := db early; isIDBOpenDBRequest := true; proxy := None;
     onerror := None; onsuccess := None; onupgradeneeded := None;
     events := [("onupgradeneeded", VUndefined); ("onsuccess", VUndefined)] |}.

Definition impl (early : bool)
  : IndexedDBFactoryWrapper World value (list entry) :=
  {| open := fun _ => ret (request early) |}.

End Faulty.

(** ** Lifecycles of a request *)

(** The upgrade-needed events a backend delivers before it settles an open
    request, and their number in a list of events. *)
Definition upgrade_events (args : list value) : list (string * value) :=
  map (fun arg => ("onupgradeneeded", arg)) args.

Fixpoint upgrades (evs : list (string * value)) : nat :=
  match evs with
  | [] => 0
  | (name, _) :: rest =>
      (if String.eqb name "onupgradeneeded" then 1 else 0) + upgrades rest
  end.

(** What one run of the adapter's upgrade-needed handler does to the world:
    the callback on the request's result, if the handler was attached and a
    callback was given. *)
Definition initialization {R W} (idbRequest : IDBRequest R (cell R W))
    (objectStoreConstructor : option (ObjectStoreConstructor R W))
  : W -> W :=
  match objectStoreConstructor with
  | Some ctor =>
      if isIDBOpenDBRequest idbRequest then ctor (result idbRequest)
      else fun w => w
  | None => fun w => w
  end.

(** The key-field values of a batch. *)
Definition keys (mockOptions : option Mock.MockOptions)
    (entries : list entry) : list value :=
  map (fun item => get_prop item (key_of mockOptions)) entries.

(** ** The test harness *)

(** A DOM element: tag, attributes, text and child elements. *)
Inductive Element : Type :=
| node (tagName : string) (attributes : list (string * string))
       (textContent : string) (children : list Element).

Definition createElement (tagName : string) : Element :=
  node tagName [] "" [].

(** [element.setAttribute(name, v)]: the attribute is replaced where it is,
    or added last. *)
Fixpoint set_attribute (name v : string) (attrs : list (string * string))
  : list (string * string) :=
  match attrs with
  | [] => [(name, v)]
  | (n, old) :: rest =>
      if String.eqb n name then (n, v) :: rest
      else (n, old) :: set_attribute name v rest
  end.

Definition setAttribute (name v : string) (e : Element) : Element :=
  match e with
  | node tag attrs text kids => node tag (set_attribute name v attrs) text kids
  end.

(** [element.textContent = text]: the text replaces the children. *)
Definition setTextContent (text : string) (e : Element) : Element :=
  match e with
  | node tag attrs _ _ => node tag attrs text []
  end.

(** [parent.appendChild(child)] for a child that is not in the tree yet. *)
Definition appendChild (child : Element) (parent : Element) : Element :=
  match parent with
  | node tag attrs text kids => node tag attrs text (kids ++ [child])%list
  end.

(** What the harness acts on: the arrays of the mock instances, the lines
    written to the console and the children of [document.body]. *)
Inductive ConsoleEntry (Number : Type) : Type :=
| console_log (random : Number) (label : string) (payload : value)
| console_error (random : Number) (label : string) (payload : value).
Arguments console_log {Number} random label payload.
Arguments console_error {Number} random label payload.

Record Env (Number : Type) : Type := {
  heap : Mock.World;
  console : list (ConsoleEntry Number);
  body : list Element
}.
Arguments heap {Number} _.
Arguments console {Number} _.
Arguments body {Number} _.

(** Truthiness of a value, as [&&] tests it. *)
Definition truthy (v : value) : bool :=
  match v with
  | VUndefined | VNull => false
  | VBool b => b
  | VNumber n => negb (Z.eqb n 0)
  | VString s => negb (String.eqb s "")
  | VObject _ | VArray _ => true
  end.

Record TestCaseOptions (Number : Type) : Type := {
  mock : promise (IIndexedDBWrapper Mock.World value nat);
  expectedGetAllResult : value;
  expectedAddResult : value;
  random : Number
}.
Arguments mock {Number} _.
Arguments expectedGetAllResult {Number} _.
Arguments expectedAddResult {Number} _.
Arguments random {Number} _.

Section Harness.
(** The platform's part, kept abstract: the numbers [Math.random] returns and
    their rendering in a template literal, the rendering of a value and of
    [new Date(year, month, day, hours, minutes, 0)] in a template literal,
    [JSON.stringify] and the [Error] constructor. *)
Variable Number : Type.
Variable NumberToString : Number -> string.
Variable ToString : value -> string.
Variable DateToString : value -> value -> value -> value -> value -> string.
Variable JSON_stringify : value -> option string.
Variable Error : string -> value.

(** The element built for one item. *)
Definition itemRepr (item : entry) : Element :=
  let itemRepr := createElement "div" in
  let itemRepr := setAttribute "class" "beautiful-todo-item" itemRepr in
  setTextContent
    ("Task Title: " ++ ToString (get_prop item "taskTitle")
     ++ " | Due: "
     ++ DateToString (get_prop item "year") (get_prop item "month")
          (get_prop item "day") (get_prop item "hours")
          (get_prop item "minutes")
     ++ " | Notified: " ++ ToString (get_prop item "notified"))
    itemRepr.

(** [presentWhatsInTheDatabase(items)], on the children of [document.body]:
    the new [div] is appended first and then filled, item by item. *)
Definition presentWhatsInTheDatabase (items : list entry)
  : M (list Element) unit :=
  fun children =>
    let div := createElement "div" in
    let place := length children in
    let children := (children ++ [div])%list in
    (tt,
     fold_left
       (fun children item => alter (appendChild (itemRepr item)) place children)
       items children).

(** Running a computation of the mock, the console or the presentation inside
    the harness. *)
Definition on_heap {A} (c : M Mock.World A) : M (Env Number) A :=
  fun env =>
    let '(a, h) := c (heap env) in
    (a, {| heap := h; console := console env; body := body env |}).

Definition write (line : ConsoleEntry Number) : M (Env Number) unit :=
  fun env =>
    (tt, {| heap := heap env; console := (console env ++ [line])%list;
            body := body env |}).

Definition on_body {A} (c : M (list Element) A) : M (Env Number) A :=
  fun env =>
    let '(a, b) := c (body env) in
    (a, {| heap := heap env; console := console env; body := b |}).

(** The entries an array of the mock holds, and the array as a value. *)
Definition read (items : nat) : M (Env Number) (list entry) :=
  fun env => (default [] (heap env !! items), env).

Definition array_value (items : list entry) : value :=
  VArray (map VObject items).

(** The item a test case adds. *)
Definition newItemOf (random : Number) : entry :=
  [("taskTitle", VString ("Walk dog #" ++ NumberToString random));
   ("hours", VNumber 19); ("minutes", VNumber 30); ("day", VNumber 24);
   ("month", VNumber 11); ("year", VNumber 2013);
   ("notified", VString "no")].

Definition same_JSON (a b : value) : bool :=
  bool_decide (JSON_stringify a = JSON_stringify b).

(** The promise chain [testCases.forEach] hangs on one test case, run on its
    own. *)
Definition added (tc : TestCaseOptions Number)
  : M (Env Number)
      (promise (IIndexedDBWrapper Mock.World value nat * list value)) :=
  then_ (mock tc) (fun db =>
    let newItem := newItemOf (random tc) in
    p <- on_heap (add db [newItem]) ;;
    then_ p (fun result => ret (Fulfilled (db, result)))).

Definition checkedAdd (tc : TestCaseOptions Number)
    (p : promise (IIndexedDBWrapper Mock.World value nat * list value))
  : M (Env Number) (promise (IIndexedDBWrapper Mock.World value nat * nat)) :=
  then_ p (fun '(db, result) =>
    if truthy (expectedAddResult tc)
       && negb (same_JSON (VArray result) (expectedAddResult tc))
    then ret (Rejected (Error "our test failed"))
    else
      _ <- write (console_log (random tc) "add result" (VArray result)) ;;
      q <- on_heap (getAll db) ;;
      then_ q (fun getAllResult => ret (Fulfilled (db, getAllResult)))).

Definition checkedGetAll (tc : TestCaseOptions Number)
    (p : promise (IIndexedDBWrapper Mock.World value nat * nat))
  : M (Env Number) (promise (IIndexedDBWrapper Mock.World value nat)) :=
  then_ p (fun '(db, result) =>
    items <- read result ;;
    let areEqual :=
      same_JSON (array_value items) (expectedGetAllResult tc) in
    if truthy (expectedGetAllResult tc) && negb areEqual
    then ret (Rejected (Error "our test failed"))
    else
      _ <- write (console_log (random tc) "get all result"
                    (array_value items)) ;;
      ret (Fulfilled db)).

Definition presented (p : promise (IIndexedDBWrapper Mock.World value nat))
  : M (Env Number) (promise value) :=
  then_ p (fun db =>
    q <- on_heap (getAll db) ;;
    then_ q (fun result =>
      items <- read result ;;
      _ <- on_body (presentWhatsInTheDatabase items) ;;
      ret (Fulfilled VUndefined))).

Definition runTestCase (tc : TestCaseOptions Number)
  : M (Env Number) (promise value) :=
  p1 <- added tc ;;
  p2 <- checkedAdd tc p1 ;;
  p3 <- checkedGetAll tc p2 ;;
  p4 <- presented p3 ;;
  match p4 with
  | Rejected err =>
      _ <- write (console_error (random tc) "error occurred in indexedDB"
                    err) ;;
      ret (Fulfilled VUndefined)
  | _ => ret p4
  end.
End Harness.

(** A stand-in for the platform's part, for the instances below: numbers are
    given by their rendering, and [JSON_stringify] only tells an empty array
    from a non-empty one. *)
Module Sample.

Definition NumberToString (n : string) : string := n.

Definition ToString (v : value) : string :=
  match v with VString s => s | _ => "?" end.

Definition DateToString (year month day hours minutes : value) : string :=
  "Sun Nov 24 2013 19:30:00".

Definition JSON_stringify (v : value) : option string :=
  match v with
  | VArray [] => Some "[]"
  | VArray (_ :: _) => Some "[...]"
  | _ => None
  end.

Definition Error (message : string) : value :=
  VObject [("message", VString message)].

Definition run : TestCaseOptions string -> M (Env string) (promise value) :=
  runTestCase string NumberToString ToString DateToString JSON_stringify
    Error.

Definition newItem : entry := newItemOf string NumberToString "0.42".

Definition env : Env string := {| heap := [[]]; console := []; body := [] |}.

End Sample.

(** ** Promises settle once *)

Lemma resolve_settled {A} (v : A) (p : promise A) :
  is_pending p = false -> resolve v p = p.
Proof. by destruct p. Qed.

Lemma reject_settled {A} (r : value) (p : promise A) :
  is_pending p = false -> reject r p = p.
Proof. by destruct p. Qed.

(** ** The join *)

Lemma Promise_all_fulfilled {A B} (f : A -> B) (xs : list A) :
  Promise_all (map (fun x => Fulfilled (f x)) xs) = Fulfilled (map f xs).
Proof.
  unfold Promise_all.
  assert (first_rejection (map (fun x => Fulfilled (f x)) xs) = None) as ->
    by (induction xs; auto).
  assert (all_values (map (fun x => Fulfilled (f x)) xs) = Some (map f xs))
    as -> by (induction xs as [|x xs IH]; simpl; [|rewrite IH]; auto).
  reflexivity.
Qed.

Lemma Promise_all_rejected {A B} (r : value) (x : B) (xs : list B) :
  Promise_all (map (fun _ => @Rejected A r) (x :: xs)) = Rejected r.
Proof. reflexivity. Qed.

(** The join is fulfilled only when every member is. *)
Lemma Promise_all_Fulfilled_inv {A} (ps : list (promise A)) (vs : list A) :
  Promise_all ps = Fulfilled vs -> ps = map Fulfilled vs.
Proof.
  unfold Promise_all.
  destruct (first_rejection ps); [discriminate|].
  destruct (all_values ps) as [vs'|] eqn:E; [|discriminate].
  intros [= <-]. revert vs' E.
  induction ps as [|[|v|r] ps IH]; simpl; intros vs' E; try discriminate.
  - by injection E as <-.
  - destruct (all_values ps) as [ws|]; [|discriminate].
    injection E as <-. simpl. f_equal. by apply IH.
Qed.

(** ** The adapter on the mock's proxies *)

Lemma wrapper_Proxy {R W} (r : R) (s : bool) (op : string)
    (ctor : option (ObjectStoreConstructor R W)) (w : W) :
  IndexedDBRequestWrapper (Mock.Proxy r s op) ctor w
  = (Mock.Proxy r s op,
     (if s then Fulfilled r else Rejected (synthetic_error op), w)).
Proof. by destruct s. Qed.

Lemma wrapped_Proxy {R W} (r : R) (s : bool) (op : string)
    (ctor : option (ObjectStoreConstructor R W)) (w : W) :
  wrapped (Mock.Proxy r s op) ctor w
  = (if s then Fulfilled r else Rejected (synthetic_error op), w).
Proof. unfold wrapped. rewrite wrapper_Proxy. reflexivity. Qed.

(** ** The mock's store *)

Section MockStore.
Variable mockOptions : option Mock.MockOptions.
Variable items : nat.

Lemma addRequestGenerator_mock (item : entry) (w : Mock.World) :
  addRequestGenerator (store_of mockOptions items) item w
  = (inserted mockOptions item, alter (fun a => (a ++ [item])%list) items w).
Proof.
  unfold addRequestGenerator, bind. simpl. unfold Mock.add.
  rewrite wrapped_Proxy. reflexivity.
Qed.

Lemma addRequests_mock (iterable : list entry) (w : Mock.World) :
  addRequests (store_of mockOptions items) iterable w
  = (map (inserted mockOptions) iterable,
     alter (fun a => (a ++ iterable)%list) items w).
Proof.
  unfold addRequests. revert w.
  induction iterable as [|item rest IH]; intros w; simpl.
  - unfold ret. f_equal. symmetry. apply list_alter_id.
    intros a. apply app_nil_r.
  - unfold bind. rewrite addRequestGenerator_mock, IH. unfold ret.
    f_equal. etrans; [apply list_alter_alter_eq|].
    apply list_alter_ext; [|done].
    intros a _. simpl. by rewrite <- app_assoc.
Qed.

Lemma add_mock (iterable : list entry) (w : Mock.World) :
  add (session (store_of mockOptions items)) iterable w
  = (Promise_all (map (inserted mockOptions) iterable),
     alter (fun a => (a ++ iterable)%list) items w).
Proof. simpl. unfold bind. rewrite addRequests_mock. reflexivity. Qed.

Lemma getAll_mock (w : Mock.World) :
  getAll (session (store_of mockOptions items)) w
  = (if gets mockOptions then Fulfilled items
     else Rejected (synthetic_error "getAll"), w).
Proof. simpl. unfold bind. simpl. apply wrapped_Proxy. Qed.
End MockStore.

(** What pushing to the instance's array does to the world. *)
Lemma pushed_lookup (w : Mock.World) (items : nat) (old new : list entry) :
  w !! items = Some old ->
  alter (fun a => (a ++ new)%list) items w !! items = Some (old ++ new)%list.
Proof. intros H. by rewrite list_lookup_alter_eq, H. Qed.

Lemma fresh_lookup (w : Mock.World) :
  (w ++ [[]])%list !! length w = Some ([] : list entry).
Proof. by rewrite lookup_app_r, Nat.sub_diag. Qed.

(** ** Building a session over the mock *)

Lemma mockSession_eq (mockOptions : option Mock.MockOptions)
    (databaseName objectStoreName : string)
    (ctor : ObjectStoreConstructor (IDBDatabase Mock.World value nat)
              Mock.World)
    (w : Mock.World) :
  mockSession mockOptions databaseName objectStoreName ctor w
  = (if opens mockOptions
     then Fulfilled (session (store_of mockOptions (length w)))
     else Rejected (synthetic_error "open"),
     (w ++ [[]])%list).
Proof.
  unfold mockSession, bind, Mock.mockImpl, new, bind. simpl.
  unfold Mock.open, ret. rewrite wrapped_Proxy.
  fold (configured mockOptions). fold (opens mockOptions).
  by destruct (opens mockOptions).
Qed.

(** ** The adapter on an ordinary event target *)

Section Target.
Context {R W : Type}.
Implicit Types (req : IDBRequest R (cell R W)).
Implicit Types (ctor : option (ObjectStoreConstructor R W)).

Lemma wrapper_target req ctor (w : W) :
  proxy req = None ->
  IndexedDBRequestWrapper req ctor w = (attached req ctor, (Pending, w)).
Proof.
  intros H. unfold IndexedDBRequestWrapper, assign, attached, store_handler.
  rewrite H. simpl. by destruct (isIDBOpenDBRequest req).
Qed.

Lemma wrapper_keeps_upgrade_slot req ctor (w : W) :
  isIDBOpenDBRequest req = false ->
  onupgradeneeded (fst (IndexedDBRequestWrapper req ctor w))
  = onupgradeneeded req.
Proof.
  intros H. unfold IndexedDBRequestWrapper, assign, store_handler. rewrite H.
  destruct (proxy req) eqn:E; simpl; by rewrite ?E.
Qed.

(** One delivered event, by the name of its handler property. *)
Lemma dispatch_attached req ctor (p : promise R) (w : W) name arg :
  onupgradeneeded req = None ->
  dispatch (attached req ctor) (p, w) (name, arg)
  = if String.eqb name "onerror" then (reject arg p, w)
    else if String.eqb name "onsuccess" then (resolve (result req) p, w)
    else if String.eqb name "onupgradeneeded" && isIDBOpenDBRequest req
    then onupgradeneeded_handler req ctor arg (p, w)
    else (p, w).
Proof.
  intros H. unfold dispatch, handler_of, attached. simpl. rewrite H.
  destruct (String.eqb name "onerror"); [done|].
  destruct (String.eqb name "onsuccess"); [done|].
  destruct (String.eqb name "onupgradeneeded"); [|done].
  by destruct (isIDBOpenDBRequest req).
Qed.

Lemma dispatch_attached_promise req ctor (p : promise R) (w : W) name arg :
  onupgradeneeded req = None ->
  fst (dispatch (attached req ctor) (p, w) (name, arg))
  = if String.eqb name "onerror" then reject arg p
    else if String.eqb name "onsuccess" then resolve (result req) p
    else p.
Proof.
  intros H. rewrite dispatch_attached by done.
  destruct (String.eqb name "onerror"); [done|].
  destruct (String.eqb name "onsuccess"); [done|].
  destruct (String.eqb name "onupgradeneeded" && isIDBOpenDBRequest req);
    [|done].
  unfold onupgradeneeded_handler. by destruct ctor.
Qed.

(** A settled promise stays as it is, whatever is delivered. *)
Lemma deliver_settled req ctor evs (st : cell R W) :
  onupgradeneeded req = None ->
  is_pending (fst st) = false ->
  fst (deliver (attached req ctor) evs st) = fst st.
Proof.
  intros Hup. unfold deliver. revert st.
  induction evs as [|[name arg] evs IH]; intros [p w] Hp; [done|].
  simpl in *. rewrite IH.
  - rewrite dispatch_attached_promise by done.
    rewrite reject_settled, resolve_settled by done. by repeat case_match.
  - rewrite dispatch_attached_promise by done.
    rewrite reject_settled, resolve_settled by done. by repeat case_match.
Qed.

(** A pending promise takes the outcome of the first settling event. *)
Lemma deliver_pending req ctor evs (w : W) :
  onupgradeneeded req = None ->
  fst (deliver (attached req ctor) evs (Pending, w))
  = outcome (result req) evs.
Proof.
  intros Hup. unfold deliver. revert w.
  induction evs as [|[name arg] evs IH]; intros w; [done|].
  simpl. destruct (dispatch (attached req ctor) (Pending, w) (name, arg))
    as [p' w'] eqn:E.
  pose proof (dispatch_attached_promise req ctor Pending w name arg Hup) as Hd.
  rewrite E in Hd. simpl in Hd.
  destruct (String.eqb name "onerror").
  { subst p'. by apply (deliver_settled req ctor evs (_, w')). }
  destruct (String.eqb name "onsuccess").
  { subst p'. by apply (deliver_settled req ctor evs (_, w')). }
  subst p'. apply IH.
Qed.

Lemma settlements_settled req ctor evs (st : cell R W) :
  onupgradeneeded req = None ->
  is_pending (fst st) = false ->
  settlements (fst st) (states (attached req ctor) evs st) = 0.
Proof.
  intros Hup. revert st.
  induction evs as [|[name arg] evs IH]; intros [p w] Hp; [done|].
  simpl in *. rewrite Hp. simpl. apply IH.
  rewrite dispatch_attached_promise by done.
  rewrite reject_settled, resolve_settled by done. by repeat case_match.
Qed.

Lemma settlements_pending req ctor evs (w : W) :
  onupgradeneeded req = None ->
  settlements Pending (states (attached req ctor) evs (Pending, w))
  = if is_pending (outcome (result req) evs) then 0 else 1.
Proof.
  intros Hup. revert w.
  induction evs as [|[name arg] evs IH]; intros w; [done|].
  simpl. destruct (dispatch (attached req ctor) (Pending, w) (name, arg))
    as [p' w'] eqn:E.
  pose proof (dispatch_attached_promise req ctor Pending w name arg Hup) as Hd.
  rewrite E in Hd. simpl in Hd. simpl.
  destruct (String.eqb name "onerror").
  { subst p'. simpl.
    pose proof (settlements_settled req ctor evs (Rejected arg, w') Hup eq_refl)
      as Hs.
    simpl in Hs. by rewrite Hs. }
  destruct (String.eqb name "onsuccess").
  { subst p'. simpl.
    pose proof (settlements_settled req ctor evs (Fulfilled (result req), w')
                  Hup eq_refl) as Hs.
    simpl in Hs. by rewrite Hs. }
  subst p'. simpl. apply IH.
Qed.
End Target.

(** ** Properties of the specification *)

Section MockClaims.
Variable mockOptions : option Mock.MockOptions.
Variables databaseName objectStoreName : string.
Variable ctor :
  ObjectStoreConstructor (IDBDatabase Mock.World value nat) Mock.World.
Variable w : Mock.World.

Local Abbreviation fresh_session :=
  (mockSession mockOptions databaseName objectStoreName ctor).
Local Abbreviation k := (key_of mockOptions).

(** C1. On a mock whose toggles all succeed, for entries whose primary-key
    values are pairwise distinct, the session's [add] of the entries followed
    by [getAll] resolves with the array holding exactly those entries, in the
    order given. *)
Theorem add_then_getAll_returns_the_entries (entries : list entry) :
  opens mockOptions = true ->
  adds mockOptions = true ->
  gets mockOptions = true ->
  NoDup (map (fun item => get_prop item k) entries) ->
  exists db w1 w2 items,
    fresh_session w = (Fulfilled db, w1)
    /\ add db entries w1
       = (Fulfilled (map (fun item => get_prop item k) entries), w2)
    /\ getAll db w2 = (Fulfilled items, w2)
    /\ w2 !! items = Some entries
    /\ thenAddThenGetAll fresh_session entries w = (Fulfilled items, w2).
Proof.
  intros Ho Ha Hg _.
  exists (session (store_of mockOptions (length w))), (w ++ [[]])%list.
  exists (alter (fun a => (a ++ entries)%list) (length w) (w ++ [[]])%list).
  exists (length w).
  assert (Hadd : Promise_all (map (inserted mockOptions) entries)
                 = Fulfilled (map (fun item => get_prop item k) entries)).
  { unfold inserted. rewrite Ha. apply Promise_all_fulfilled. }
  assert (Hw : alter (fun a => (a ++ entries)%list) (length w)
                 (w ++ [[]])%list !! length w = Some entries).
  { by rewrite (pushed_lookup _ _ [] entries (fresh_lookup w)). }
  repeat split.
  - by rewrite mockSession_eq, Ho.
  - by rewrite add_mock, Hadd.
  - by rewrite getAll_mock, Hg.
  - exact Hw.
  - unfold thenAddThenGetAll, bind. rewrite mockSession_eq, Ho. unfold then_.
    unfold bind. rewrite add_mock, Hadd. unfold then_.
    by rewrite getAll_mock, Hg.
Qed.

(** C2. On a mock whose toggles all succeed, [add] of a non-empty sequence of
    entries issues one insert per entry, each of which settles successfully
    with the entry's key-field value; the returned promise is the join of
    these, which is fulfilled only when every member is, and it resolves with
    the key-field values in the order of the entries. *)
Theorem add_resolves_with_the_keys (entries : list entry) :
  entries <> [] ->
  opens mockOptions = true ->
  adds mockOptions = true ->
  gets mockOptions = true ->
  exists db w1 promises w2,
    fresh_session w = (Fulfilled db, w1)
    /\ addRequests (store_of mockOptions (length w)) entries w1
       = (promises, w2)
    /\ promises = map (fun item => Fulfilled (get_prop item k)) entries
    /\ add db entries w1 = (Promise_all promises, w2)
    /\ Promise_all promises
       = Fulfilled (map (fun item => get_prop item k) entries)
    /\ (forall (members : list (promise value)) (results : list value),
          Promise_all members = Fulfilled results ->
          members = map Fulfilled results).
Proof.
  intros _ Ho Ha _.
  exists (session (store_of mockOptions (length w))), (w ++ [[]])%list.
  exists (map (fun item => Fulfilled (get_prop item k)) entries).
  exists (alter (fun a => (a ++ entries)%list) (length w) (w ++ [[]])%list).
  assert (Hins : map (inserted mockOptions) entries
                 = map (fun item => Fulfilled (get_prop item k)) entries).
  { apply map_ext. intros item. unfold inserted. by rewrite Ha. }
  repeat split.
  - by rewrite mockSession_eq, Ho.
  - by rewrite addRequests_mock, Hins.
  - by rewrite add_mock, Hins.
  - apply Promise_all_fulfilled.
  - apply Promise_all_Fulfilled_inv.
Qed.

(** C3. When the mock is configured with open failing, [new] rejects with the
    payload naming the open operation; an [add] or a [getAll] chained on it
    rejects with the same payload, and the instance's array stays empty. *)
Theorem open_failure_rejects_everything (entries : list entry) :
  opens mockOptions = false ->
  let error := VObject [("error", VString "We messed up: open")] in
  fresh_session w = (Rejected error, (w ++ [[]])%list)
  /\ thenAdd fresh_session entries w = (Rejected error, (w ++ [[]])%list)
  /\ thenGetAll fresh_session w = (Rejected error, (w ++ [[]])%list)
  /\ thenAddThenGetAll fresh_session entries w
     = (Rejected error, (w ++ [[]])%list)
  /\ (w ++ [[]])%list !! length w = Some [].
Proof.
  intros Ho error.
  assert (H : fresh_session w = (Rejected error, (w ++ [[]])%list))
    by (by rewrite mockSession_eq, Ho).
  unfold thenAdd, thenGetAll, thenAddThenGetAll, bind. rewrite H.
  repeat split. apply fresh_lookup.
Qed.

(** C4, as amended.  When the mock is configured with add failing and open
    succeeding, [add] of a non-empty sequence of entries rejects with the
    payload naming the add operation; one insert was issued per entry, each
    rejected, and every entry of the batch was appended to the instance's
    array, which was empty before. *)
Theorem add_failure_still_appends (entries : list entry) :
  entries <> [] ->
  opens mockOptions = true ->
  adds mockOptions = false ->
  let error := VObject [("error", VString "We messed up: add")] in
  exists db w1 w2,
    fresh_session w = (Fulfilled db, w1)
    /\ w1 !! length w = Some []
    /\ add db entries w1 = (Rejected error, w2)
    /\ addRequests (store_of mockOptions (length w)) entries w1
       = (map (fun _ => Rejected error) entries, w2)
    /\ w2 !! length w = Some entries.
Proof.
  intros Hne Ho Ha error.
  exists (session (store_of mockOptions (length w))), (w ++ [[]])%list.
  exists (alter (fun a => (a ++ entries)%list) (length w) (w ++ [[]])%list).
  assert (Hins : map (inserted mockOptions) entries
                 = map (fun _ => Rejected error) entries).
  { apply map_ext. intros item. unfold inserted. by rewrite Ha. }
  repeat split.
  - by rewrite mockSession_eq, Ho.
  - apply fresh_lookup.
  - rewrite add_mock, Hins. destruct entries; [done|].
    by rewrite Promise_all_rejected.
  - by rewrite addRequests_mock, Hins.
  - by rewrite (pushed_lookup _ _ [] entries (fresh_lookup w)).
Qed.

(** C5. When the mock is configured with getAll failing, open and add
    succeeding, [add] resolves with the key-field values of the entries and
    the [getAll] that follows rejects with the payload naming the getAll
    operation. *)
Theorem getAll_failure_after_add (entries : list entry) :
  opens mockOptions = true ->
  adds mockOptions = true ->
  gets mockOptions = false ->
  let error := VObject [("error", VString "We messed up: getAll")] in
  exists db w1 w2,
    fresh_session w = (Fulfilled db, w1)
    /\ add db entries w1
       = (Fulfilled (map (fun item => get_prop item k) entries), w2)
    /\ getAll db w2 = (Rejected error, w2)
    /\ thenAdd fresh_session entries w
       = (Fulfilled (map (fun item => get_prop item k) entries), w2)
    /\ thenAddThenGetAll fresh_session entries w = (Rejected error, w2).
Proof.
  intros Ho Ha Hg error.
  exists (session (store_of mockOptions (length w))), (w ++ [[]])%list.
  exists (alter (fun a => (a ++ entries)%list) (length w) (w ++ [[]])%list).
  assert (Hadd : Promise_all (map (inserted mockOptions) entries)
                 = Fulfilled (map (fun item => get_prop item k) entries)).
  { unfold inserted. rewrite Ha. apply Promise_all_fulfilled. }
  repeat split.
  - by rewrite mockSession_eq, Ho.
  - by rewrite add_mock, Hadd.
  - by rewrite getAll_mock, Hg.
  - unfold thenAdd, bind. rewrite mockSession_eq, Ho. unfold then_.
    by rewrite add_mock, Hadd.
  - unfold thenAddThenGetAll, bind. rewrite mockSession_eq, Ho. unfold then_.
    unfold bind. rewrite add_mock, Hadd. unfold then_.
    by rewrite getAll_mock, Hg.
Qed.

(** C9. On a freshly constructed mock whose toggles all succeed, [getAll]
    before any [add] resolves with the instance's array, which is empty. *)
Theorem getAll_before_add_is_empty :
  opens mockOptions = true ->
  adds mockOptions = true ->
  gets mockOptions = true ->
  exists db w1 items,
    fresh_session w = (Fulfilled db, w1)
    /\ getAll db w1 = (Fulfilled items, w1)
    /\ w1 !! items = Some []
    /\ thenGetAll fresh_session w = (Fulfilled items, w1).
Proof.
  intros Ho _ Hg.
  exists (session (store_of mockOptions (length w))), (w ++ [[]])%list.
  exists (length w).
  repeat split.
  - by rewrite mockSession_eq, Ho.
  - by rewrite getAll_mock, Hg.
  - apply fresh_lookup.
  - unfold thenGetAll, bind. rewrite mockSession_eq, Ho. unfold then_.
    by rewrite getAll_mock, Hg.
Qed.

(** C10. Over the mock, the schema-initialization callback handed to [new] is
    never invoked: the request returned by the mock's [open] is not an
    instance of [IDBOpenDBRequest], the adapter leaves its upgrade-needed
    slot empty and the world untouched, and the session and world [new]
    produces are those produced with a callback that does nothing. *)
Theorem mock_never_initializes_the_schema :
  let '(impl, w1) := Mock.mockImpl mockOptions w in
  let '(request, w2) := open impl databaseName w1 in
  let '(request', (_, w3)) :=
    IndexedDBRequestWrapper request (Some ctor) w2 in
  isIDBOpenDBRequest request = false
  /\ onupgradeneeded request' = None
  /\ (forall st arg, dispatch request' st ("onupgradeneeded", arg) = st)
  /\ w3 = w1
  /\ fresh_session w
     = mockSession mockOptions databaseName objectStoreName (fun _ w => w) w
  /\ snd (fresh_session w) = (w ++ [[]])%list.
Proof.
  unfold Mock.mockImpl. cbv beta iota zeta. cbn [open].
  unfold Mock.open, ret. rewrite wrapper_Proxy.
  repeat split; by rewrite ?mockSession_eq.
Qed.
End MockClaims.

(** C6. A request wrapped by the adapter settles its promise exactly once.
    On an ordinary event target the promise starts pending, takes the outcome
    of the first success or error event delivered (fulfilled with the
    request's result, or rejected with the error event), leaves [Pending] at
    exactly one step when such an event is delivered, and keeps its outcome
    whatever is delivered afterwards.  On a proxy of the mock, assigning the
    two handlers invokes exactly one of them, once: [onsuccess] when the
    operation's toggle succeeds, [onerror] with the operation's payload
    otherwise; and [open], [add] and [getAll] each return such a proxy with
    their own toggle. *)
Theorem adapter_settles_exactly_once :
  (forall (R W : Type) (req : IDBRequest R (cell R W))
          (ctor : option (ObjectStoreConstructor R W)) (w : W)
          (evs : list (string * value)),
      proxy req = None ->
      onupgradeneeded req = None ->
      let '(req', st) := IndexedDBRequestWrapper req ctor w in
      fst st = Pending
      /\ fst (deliver req' evs st) = outcome (result req) evs
      /\ settlements (fst st) (states req' evs st)
         = (if is_pending (outcome (result req) evs) then 0 else 1)
      /\ (forall evs',
            is_pending (fst (deliver req' evs st)) = false ->
            fst (deliver req' (evs ++ evs') st) = fst (deliver req' evs st)))
  /\ (forall (R : Type) (r : R) (s : bool) (op : string),
        (forall (St : Type) (he hs : value -> St -> St) (st : St),
            let '(req1, st1) := assign "onerror" he (Mock.Proxy r s op) st in
            let '(req2, st2) := assign "onsuccess" hs req1 st1 in
            st2 = if s then hs VUndefined st else he (synthetic_error op) st)
        /\ (forall (W : Type) (ctor : option (ObjectStoreConstructor R W))
                   (w : W),
              wrapped (Mock.Proxy r s op) ctor w
              = (if s then Fulfilled r else Rejected (synthetic_error op), w)))
  /\ (forall (sa sg so : bool) (k : string) (items : nat)
             (databaseName : string) (item : entry) (w : Mock.World),
        Mock.open sa sg so k items databaseName w
        = (Mock.Proxy (Mock.request sa sg k items) so "open", w)
        /\ fst (Mock.add sa k items item w)
           = Mock.Proxy (get_prop item k) sa "add"
        /\ Mock.getAll sg items w = (Mock.Proxy items sg "getAll", w)).
Proof.
  split; [|split].
  - intros R W req ctor w evs Hp Hup. rewrite wrapper_target by done.
    simpl fst. repeat split.
    + by apply deliver_pending.
    + by apply settlements_pending.
    + intros evs' Hs. unfold deliver at 1. rewrite fold_left_app.
      by apply (deliver_settled req ctor evs').
  - intros R r s op. split.
    + intros St he hs st. by destruct s.
    + intros W ctor w. apply wrapped_Proxy.
  - done.
Qed.

(** C7. On an ordinary event target that is a container-open request, the
    adapter's upgrade-needed handler calls the schema-initialization callback,
    when one was given, on the request's result and leaves the promise as it
    is.  On a request that is not a container-open request the adapter does
    not touch the upgrade-needed slot; if the slot was empty, an
    upgrade-needed event changes nothing. *)
Theorem upgrade_needed_only_initializes {R W : Type}
    (req : IDBRequest R (cell R W))
    (ctor : option (ObjectStoreConstructor R W)) (w : W) :
  let '(req', _) := IndexedDBRequestWrapper req ctor w in
  (proxy req = None ->
   isIDBOpenDBRequest req = true ->
   forall (p : promise R) (w' : W) (arg : value),
     dispatch req' (p, w') ("onupgradeneeded", arg)
     = (p, match ctor with Some f => f (result req) w' | None => w' end))
  /\ (isIDBOpenDBRequest req = false ->
      onupgradeneeded req' = onupgradeneeded req
      /\ (onupgradeneeded req = None ->
          forall (st : cell R W) (arg : value),
            dispatch req' st ("onupgradeneeded", arg) = st)).
Proof.
  destruct (IndexedDBRequestWrapper req ctor w) as [req' st] eqn:E.
  split.
  - intros Hp Ho p w' arg. rewrite wrapper_target in E by done.
    injection E as <- _. unfold dispatch, handler_of, attached. simpl.
    rewrite Ho. unfold onupgradeneeded_handler. by destruct ctor.
  - intros Ho.
    pose proof (wrapper_keeps_upgrade_slot req ctor w Ho) as Hk.
    rewrite E in Hk. simpl in Hk. split; [done|].
    intros Hn st' arg. unfold dispatch, handler_of. simpl.
    by rewrite Hk, Hn.
Qed.

(** C8. After a successful open, if [db.transaction] throws, or if it returns
    and [transaction.objectStore] throws, the promise returned by [new] is
    rejected with the error thrown, and the world is the one the throwing call
    left: nothing is called again. *)
Theorem new_rejects_with_the_thrown_error {W Key Arr : Type}
    (databaseName objectStoreName : string)
    (ctor : ObjectStoreConstructor (IDBDatabase W Key Arr) W)
    (impl : IndexedDBFactoryWrapper W Key Arr)
    (request : OpenRequest W Key Arr) (db : IDBDatabase W Key Arr)
    (w w1 w2 : W) :
  open impl databaseName w = (request, w1) ->
  wrapped request (Some ctor) w1 = (Fulfilled db, w2) ->
  (forall error w3,
      transaction db [objectStoreName] "readwrite" w2 = (Throw error, w3) ->
      new databaseName objectStoreName ctor impl w = (Rejected error, w3))
  /\ (forall tx w3 error w4,
        transaction db [objectStoreName] "readwrite" w2 = (Normal tx, w3) ->
        objectStore tx objectStoreName w3 = (Throw error, w4) ->
        new databaseName objectStoreName ctor impl w = (Rejected error, w4)).
Proof.
  intros Hopen Hwrapped. split.
  - intros error w3 Ht. unfold new, bind. rewrite Hopen, Hwrapped.
    unfold opened, bind. by rewrite Ht.
  - intros tx w3 error w4 Ht Hos. unfold new, bind. rewrite Hopen, Hwrapped.
    unfold opened, bind. by rewrite Ht, Hos.
Qed.

(** ** The test scenarios, evaluated *)

Example working_mock_add :
  thenAdd withWorkingMockedIndexedDB [newItem] []
  = (Fulfilled [VString "Walk dog #R"], [[newItem]]).
Proof. reflexivity. Qed.

Example working_mock_getAll :
  thenAddThenGetAll withWorkingMockedIndexedDB [newItem] []
  = (Fulfilled 0, [[newItem]]).
Proof. reflexivity. Qed.

Example broken_open_chain :
  thenAddThenGetAll withBrokenOpen [newItem] []
  = (Rejected (VObject [("error", VString "We messed up: open")]), [[]]).
Proof. reflexivity. Qed.

Example broken_add_chain :
  thenAddThenGetAll withBrokenAdd [newItem] []
  = (Rejected (VObject [("error", VString "We messed up: add")]), [[newItem]]).
Proof. reflexivity. Qed.

Example broken_getAll_chain :
  thenAddThenGetAll withBrokenGetAll [newItem] []
  = (Rejected (VObject [("error", VString "We messed up: getAll")]),
     [[newItem]]).
Proof. reflexivity. Qed.

(** Two mock instances keep separate arrays. *)
Example instances_do_not_share :
  (first <- thenAdd withWorkingMockedIndexedDB [newItem] ;;
   thenAddThenGetAll withWorkingMockedIndexedDB [otherItem]) []
  = (Fulfilled 1, [[newItem]; [otherItem]]).
Proof. reflexivity. Qed.

(** ** Instances *)

Lemma add_then_getAll_returns_the_entries_witness :
  exists db w1 w2 items,
    withWorkingMockedIndexedDB [] = (Fulfilled db, w1)
    /\ add db [newItem; otherItem] w1
       = (Fulfilled [VString "Walk dog #R"; VString "Feed cat"], w2)
    /\ getAll db w2 = (Fulfilled items, w2)
    /\ w2 !! items = Some [newItem; otherItem]
    /\ thenAddThenGetAll withWorkingMockedIndexedDB [newItem; otherItem] []
       = (Fulfilled items, w2).
Proof.
  apply (add_then_getAll_returns_the_entries None "some_named_database"
           "toDoList" toDoListObjectStoreConstructor [] [newItem; otherItem]);
    [reflexivity | reflexivity | reflexivity |].
  simpl. apply NoDup_cons. split; [|apply NoDup_singleton].
  intros H. apply list_elem_of_singleton in H. discriminate H.
Defined.

Lemma add_resolves_with_the_keys_witness :
  exists db w1 promises w2,
    withWorkingMockedIndexedDB [] = (Fulfilled db, w1)
    /\ addRequests (store_of None 0) [newItem] w1 = (promises, w2)
    /\ promises = [Fulfilled (VString "Walk dog #R")]
    /\ add db [newItem] w1 = (Promise_all promises, w2)
    /\ Promise_all promises = Fulfilled [VString "Walk dog #R"]
    /\ (forall (members : list (promise value)) (results : list value),
          Promise_all members = Fulfilled results ->
          members = map Fulfilled results).
Proof.
  apply (add_resolves_with_the_keys None "some_named_database" "toDoList"
           toDoListObjectStoreConstructor [] [newItem]);
    [discriminate | reflexivity | reflexivity | reflexivity].
Defined.

Lemma open_failure_rejects_everything_witness :
  let error := VObject [("error", VString "We messed up: open")] in
  withBrokenOpen [] = (Rejected error, [[]])
  /\ thenAdd withBrokenOpen [newItem] [] = (Rejected error, [[]])
  /\ thenGetAll withBrokenOpen [] = (Rejected error, [[]])
  /\ thenAddThenGetAll withBrokenOpen [newItem] [] = (Rejected error, [[]])
  /\ [[]] !! 0 = Some ([] : list entry).
Proof.
  apply (open_failure_rejects_everything
           (Some {| Mock.shouldAdd := None; Mock.shouldGetAll := None;
                    Mock.shouldOpen := Some false;
                    Mock.key := "taskTitle" |})
           "some_named_database" "toDoList" toDoListObjectStoreConstructor
           [] [newItem]).
  reflexivity.
Defined.

(** The claim C4 as stated fails on the empty batch: with add failing, [add]
    of no entry resolves, with the empty sequence. *)
Lemma add_failure_empty_batch_resolves :
  thenAdd withBrokenAdd [] [] = (Fulfilled [], [[]])
  /\ fst (thenAdd withBrokenAdd [] [])
     <> Rejected (VObject [("error", VString "We messed up: add")]).
Proof. split; [reflexivity | discriminate]. Qed.

Lemma add_failure_still_appends_witness :
  let error := VObject [("error", VString "We messed up: add")] in
  exists db w1 w2,
    withBrokenAdd [] = (Fulfilled db, w1)
    /\ w1 !! 0 = Some []
    /\ add db [newItem; otherItem] w1 = (Rejected error, w2)
    /\ addRequests
         (store_of (Some {| Mock.shouldAdd := Some false;
                            Mock.shouldGetAll := None;
                            Mock.shouldOpen := None;
                            Mock.key := "taskTitle" |}) 0)
         [newItem; otherItem] w1
       = ([Rejected error; Rejected error], w2)
    /\ w2 !! 0 = Some [newItem; otherItem].
Proof.
  apply (add_failure_still_appends
           (Some {| Mock.shouldAdd := Some false; Mock.shouldGetAll := None;
                    Mock.shouldOpen := None; Mock.key := "taskTitle" |})
           "some_named_database" "toDoList" toDoListObjectStoreConstructor
           [] [newItem; otherItem]);
    [discriminate | reflexivity | reflexivity].
Defined.

Lemma getAll_failure_after_add_witness :
  let error := VObject [("error", VString "We messed up: getAll")] in
  exists db w1 w2,
    withBrokenGetAll [] = (Fulfilled db, w1)
    /\ add db [newItem] w1 = (Fulfilled [VString "Walk dog #R"], w2)
    /\ getAll db w2 = (Rejected error, w2)
    /\ thenAdd withBrokenGetAll [newItem] []
       = (Fulfilled [VString "Walk dog #R"], w2)
    /\ thenAddThenGetAll withBrokenGetAll [newItem] [] = (Rejected error, w2).
Proof.
  apply (getAll_failure_after_add
           (Some {| Mock.shouldAdd := None; Mock.shouldGetAll := Some false;
                    Mock.shouldOpen := None; Mock.key := "taskTitle" |})
           "some_named_database" "toDoList" toDoListObjectStoreConstructor
           [] [newItem]);
    reflexivity.
Defined.

Lemma getAll_before_add_is_empty_witness :
  exists db w1 items,
    withWorkingMockedIndexedDB [] = (Fulfilled db, w1)
    /\ getAll db w1 = (Fulfilled items, w1)
    /\ w1 !! items = Some []
    /\ thenGetAll withWorkingMockedIndexedDB [] = (Fulfilled items, w1).
Proof.
  apply (getAll_before_add_is_empty None "some_named_database" "toDoList"
           toDoListObjectStoreConstructor []);
    reflexivity.
Defined.

Lemma adapter_settles_exactly_once_witness :
  let evs := [("onupgradeneeded", VUndefined); ("onsuccess", VUndefined);
              ("onerror", VString "late")] in
  let '(req', st) :=
    IndexedDBRequestWrapper (Faulty.request true) None (0, 0) in
  fst st = Pending
  /\ fst (deliver req' evs st) = Fulfilled (Faulty.db true)
  /\ settlements (fst st) (states req' evs st) = 1
  /\ (forall evs',
        is_pending (fst (deliver req' evs st)) = false ->
        fst (deliver req' (evs ++ evs') st) = fst (deliver req' evs st)).
Proof.
  exact (proj1 adapter_settles_exactly_once _ _ (Faulty.request true) None
           (0, 0)
           [("onupgradeneeded", VUndefined); ("onsuccess", VUndefined);
            ("onerror", VString "late")]
           eq_refl eq_refl).
Defined.

Lemma upgrade_needed_only_initializes_witness :
  let count : ObjectStoreConstructor _ Faulty.World :=
    fun _ '(t, o) => (t + 100, o) in
  let '(req', _) :=
    IndexedDBRequestWrapper (Faulty.request true) (Some count) (0, 0) in
  forall (p : promise _) (w' : Faulty.World) (arg : value),
    dispatch req' (p, w') ("onupgradeneeded", arg)
    = (p, count (Faulty.db true) w').
Proof.
  exact (proj1 (upgrade_needed_only_initializes (Faulty.request true)
                  (Some (fun _ '(t, o) => (t + 100, o))) (0, 0))
           eq_refl eq_refl).
Defined.

Lemma new_rejects_with_the_thrown_error_witness :
  new "some_named_database" "toDoList" toDoListObjectStoreConstructor
    (Faulty.impl true) (0, 0)
  = (Rejected (VString "InvalidStateError"), (1, 0))
  /\ new "some_named_database" "toDoList" toDoListObjectStoreConstructor
       (Faulty.impl false) (0, 0)
     = (Rejected (VString "NotFoundError"), (1, 1)).
Proof.
  split.
  - apply (proj1 (new_rejects_with_the_thrown_error "some_named_database"
                    "toDoList" toDoListObjectStoreConstructor
                    (Faulty.impl true) (Faulty.request true) (Faulty.db true)
                    (0, 0) (0, 0) (0, 0) eq_refl eq_refl)).
    reflexivity.
  - apply (proj2 (new_rejects_with_the_thrown_error "some_named_database"
                    "toDoList" toDoListObjectStoreConstructor
                    (Faulty.impl false) (Faulty.request false)
                    (Faulty.db false) (0, 0) (0, 0) (0, 0) eq_refl eq_refl)
             {| IDB.objectStore := Faulty.objectStore |} (1, 0)).
    + reflexivity.
    + reflexivity.
Defined.

(** ** Further properties of the mock's store *)



Lemma add_mock_succeeding (mockOptions : option Mock.MockOptions)
    (items : nat) (entries : list entry) (w : Mock.World) :
  adds mockOptions = true ->
  add (session (store_of mockOptions items)) entries w
  = (Fulfilled (keys mockOptions entries),
     alter (fun a => (a ++ entries)%list) items w).
Proof.
  intros Ha. rewrite add_mock. f_equal. unfold inserted. rewrite Ha.
  apply Promise_all_fulfilled.
Qed.

(** Pulling a session out of a successful [new] over the mock. *)
Lemma mockSession_Fulfilled (mockOptions : option Mock.MockOptions)
    (databaseName objectStoreName : string)
    (ctor : ObjectStoreConstructor (IDBDatabase Mock.World value nat)
              Mock.World)
    (w w1 : Mock.World) (db : IIndexedDBWrapper Mock.World value nat) :
  mockSession mockOptions databaseName objectStoreName ctor w
  = (Fulfilled db, w1) ->
  opens mockOptions = true
  /\ db = session (store_of mockOptions (length w))
  /\ w1 = (w ++ [[]])%list.
Proof.
  rewrite mockSession_eq. destruct (opens mockOptions); [|discriminate].
  by intros [= <- <-].
Qed.

Section MockStoreProperties.
Variable mockOptions : option Mock.MockOptions.
Variables databaseName objectStoreName : string.
Variable ctor :
  ObjectStoreConstructor (IDBDatabase Mock.World value nat) Mock.World.
Variables (w w1 : Mock.World).
Variable db : IIndexedDBWrapper Mock.World value nat.
Hypothesis built :
  mockSession mockOptions databaseName objectStoreName ctor w
  = (Fulfilled db, w1).

(** X1. Whatever the add toggle, [add] on a session of the mock appends the
    batch, in order, after what the instance's array already holds, and
    leaves every other array and the number of arrays as they were. *)
Theorem mock_add_appends (entries old : list entry) (w2 : Mock.World) :
  w2 !! length w = Some old ->
  let w3 := snd (add db entries w2) in
  w3 !! length w = Some (old ++ entries)%list
  /\ (forall other, other <> length w -> w3 !! other = w2 !! other)
  /\ length w3 = length w2.
Proof.
  destruct (mockSession_Fulfilled _ _ _ _ _ _ _ built) as (_ & -> & _).
  intros Hold. rewrite add_mock. simpl. repeat split.
  - by apply pushed_lookup.
  - intros other Hne. by apply list_lookup_alter_ne.
  - apply length_alter.
Qed.



(** X5. The mock does not check that keys are unique: with the add toggle
    succeeding, [add] of the same entry [n] times resolves with [n] copies of
    its key and stores [n] copies of the entry. *)
Theorem mock_add_accepts_duplicates (item : entry) (n : nat) :
  adds mockOptions = true ->
  let '(p, w2) := add db (replicate n item) w1 in
  p = Fulfilled (replicate n (get_prop item (key_of mockOptions)))
  /\ w2 !! length w = Some (replicate n item).
Proof.
  destruct (mockSession_Fulfilled _ _ _ _ _ _ _ built) as (_ & -> & ->).
  intros Ha. rewrite add_mock_succeeding by done. split.
  - f_equal. unfold keys. by rewrite fmap_replicate.
  - by rewrite (pushed_lookup _ _ [] _ (fresh_lookup w)).
Qed.


(** X7. When the add toggle fails and the getAll toggle succeeds, the
    entries of a rejected [add] are what a following [getAll] shows. *)
Theorem mock_failed_add_shows_in_getAll (entries : list entry) :
  entries <> [] ->
  adds mockOptions = false ->
  gets mockOptions = true ->
  let '(p, w2) := add db entries w1 in
  exists items,
    p = Rejected (VObject [("error", VString "We messed up: add")])
    /\ getAll db w2 = (Fulfilled items, w2)
    /\ w2 !! items = Some entries.
Proof.
  destruct (mockSession_Fulfilled _ _ _ _ _ _ _ built) as (_ & -> & ->).
  intros Hne Ha Hg. rewrite add_mock.
  exists (length w). repeat split.
  - unfold inserted. rewrite Ha. by destruct entries.
  - by rewrite getAll_mock, Hg.
  - by rewrite (pushed_lookup _ _ [] _ (fresh_lookup w)).
Qed.
End MockStoreProperties.

(** X4. Two instances of the mock keep separate arrays: after [add]s
    through two sessions built one after the other, each instance's array
    holds its own batch only. *)
Theorem mock_instances_are_isolated
    (options1 options2 : option Mock.MockOptions)
    (databaseName objectStoreName : string)
    (ctor : ObjectStoreConstructor (IDBDatabase Mock.World value nat)
              Mock.World)
    (w w1 w2 : Mock.World)
    (db1 db2 : IIndexedDBWrapper Mock.World value nat)
    (xs ys : list entry) :
  mockSession options1 databaseName objectStoreName ctor w
  = (Fulfilled db1, w1) ->
  mockSession options2 databaseName objectStoreName ctor w1
  = (Fulfilled db2, w2) ->
  let w3 := snd (add db1 xs w2) in
  let w4 := snd (add db2 ys w3) in
  w4 !! length w = Some xs /\ w4 !! length w1 = Some ys.
Proof.
  intros H1 H2.
  destruct (mockSession_Fulfilled _ _ _ _ _ _ _ H1) as (_ & -> & ->).
  destruct (mockSession_Fulfilled _ _ _ _ _ _ _ H2) as (_ & -> & ->).
  cbv zeta. rewrite !add_mock. simpl. rewrite length_app. simpl. split.
  - rewrite list_lookup_alter_ne by lia.
    apply (pushed_lookup _ _ [] xs).
    rewrite lookup_app_l by (rewrite length_app; simpl; lia).
    apply fresh_lookup.
  - apply (pushed_lookup _ _ [] ys).
    rewrite list_lookup_alter_ne by lia.
    pose proof (fresh_lookup (w ++ [[]])%list) as Hf.
    by rewrite length_app in Hf.
Qed.

(** ** Further properties of the session builder *)




(** The adapter's promise and world on an ordinary event target, for any
    events delivered from any state. *)
Lemma deliver_attached {R W : Type} (req : IDBRequest R (cell R W))
    (ctor : option (ObjectStoreConstructor R W))
    (evs : list (string * value)) (p : promise R) (w : W) :
  onupgradeneeded req = None ->
  deliver (attached req ctor) evs (p, w)
  = (if is_pending p then outcome (result req) evs else p,
     Nat.iter (upgrades evs) (initialization req ctor) w).
Proof.
  intros Hup. unfold deliver. revert p w.
  induction evs as [|[name arg] evs IH]; intros p w.
  { simpl. by destruct p. }
  cbn [fold_left]. rewrite dispatch_attached by done.
  cbn [outcome upgrades fst].
  destruct (String.eqb_spec name "onerror") as [->|_].
  { rewrite IH. simpl. by destruct p. }
  destruct (String.eqb_spec name "onsuccess") as [->|_].
  { rewrite IH. simpl. by destruct p. }
  destruct (String.eqb_spec name "onupgradeneeded") as [->|_].
  - change (1 + upgrades evs) with (S (upgrades evs)).
    rewrite Nat.iter_succ_r.
    destruct (isIDBOpenDBRequest req) eqn:Ho; cbn [andb].
    + replace (onupgradeneeded_handler req ctor arg (p, w))
        with (p, initialization req ctor w)
        by (unfold onupgradeneeded_handler, initialization; rewrite Ho;
            by destruct ctor).
      by rewrite IH.
    + replace (initialization req ctor w) with w
        by (unfold initialization; rewrite Ho; by destruct ctor).
      by rewrite IH.
  - cbn [andb]. by rewrite IH.
Qed.

(** X9. On an ordinary event target the adapter's promise takes the outcome
    of the first success or error event, and the callback runs once per
    upgrade-needed event delivered when the request is a container-open
    request; on any other request, or without a callback, the world is left
    as it was. *)
Theorem wrapped_runs_the_lifecycle {R W : Type}
    (req : IDBRequest R (cell R W))
    (ctor : option (ObjectStoreConstructor R W)) (w : W) :
  proxy req = None ->
  onupgradeneeded req = None ->
  wrapped req ctor w
  = (outcome (result req) (events req),
     Nat.iter (upgrades (events req)) (initialization req ctor) w)
  /\ (isIDBOpenDBRequest req = false -> snd (wrapped req ctor w) = w)
  /\ snd (wrapped req None w) = w.
Proof.
  intros Hp Hup.
  assert (Hid : forall n (v : W), Nat.iter n (fun w => w) v = v)
    by (induction n; intros; simpl; auto).
  unfold wrapped. rewrite !wrapper_target by done.
  change (events (attached req ctor)) with (events req).
  change (events (attached req None)) with (events req).
  rewrite !deliver_attached by done. simpl. split; [done|split].
  - intros Ho. unfold initialization. rewrite Ho. by destruct ctor.
  - apply Hid.
Qed.

(** X10. For a backend whose open request is an ordinary container-open
    request to which some upgrade-needed events and then one last event are
    delivered: the callback has run once per upgrade-needed event before
    anything else happens; on a last success event [new] goes on to
    [db.transaction] from that world; on a last error event it rejects with
    that event and calls nothing more; without a last event its promise
    stays pending. *)
Theorem new_initializes_before_the_transaction {W Key Arr : Type}
    (databaseName objectStoreName : string)
    (ctor : ObjectStoreConstructor (IDBDatabase W Key Arr) W)
    (impl : IndexedDBFactoryWrapper W Key Arr)
    (request : OpenRequest W Key Arr) (w w1 : W)
    (args : list value) (arg : value) :
  open impl databaseName w = (request, w1) ->
  proxy request = None ->
  onupgradeneeded request = None ->
  isIDBOpenDBRequest request = true ->
  let db := result request in
  let w2 := Nat.iter (length args) (ctor db) w1 in
  (events request = (upgrade_events args ++ [("onsuccess", arg)])%list ->
   new databaseName objectStoreName ctor impl w
   = opened objectStoreName db w2)
  /\ (events request = (upgrade_events args ++ [("onerror", arg)])%list ->
      new databaseName objectStoreName ctor impl w = (Rejected arg, w2))
  /\ (events request = upgrade_events args ->
      new databaseName objectStoreName ctor impl w = (Pending, w2)).
Proof.
  intros Hopen Hp Hup Ho. cbv zeta.
  set (w2 := Nat.iter (length args) (ctor (result request)) w1).
  assert (Hout : forall (last : list (string * value)),
             outcome (result request) (upgrade_events args ++ last)%list
             = outcome (result request) last
             /\ upgrades (upgrade_events args ++ last)%list
                = length args + upgrades last).
  { intros last. clear w2. induction args as [|a args IH]; [done|].
    simpl. by destruct IH as [-> ->]. }
  assert (Hnew : forall last,
             events request = (upgrade_events args ++ last)%list ->
             upgrades last = 0 ->
             wrapped request (Some ctor) w1
             = (outcome (result request) last, w2)).
  { intros last Hev Hlast. unfold wrapped. rewrite wrapper_target by done.
    change (events (attached request (Some ctor))) with (events request).
    rewrite deliver_attached by done. cbn [is_pending]. rewrite Hev.
    destruct (Hout last) as [-> ->]. rewrite Hlast, Nat.add_0_r.
    unfold initialization. by rewrite Ho. }
  repeat split.
  - intros Hev. unfold new, bind. by rewrite Hopen, (Hnew _ Hev).
  - intros Hev. unfold new, bind. by rewrite Hopen, (Hnew _ Hev).
  - intros Hev. unfold new, bind. rewrite Hopen.
    rewrite (Hnew []); [done| by rewrite app_nil_r | done].
Qed.

(** X11. A request of the mock ignores every handler assigned under a name
    other than [onsuccess] and [onerror]; it stores no handler, so that events
    delivered to it later do nothing; and the order in which the two handlers
    are assigned does not change which one is invoked. *)
Theorem mock_request_fires_on_assignment_only {R St : Type}
    (r : R) (s : bool) (op : string) (he hs h : value -> St -> St)
    (name : string) (st : St) (evs : list (string * value)) :
  name <> "onsuccess" ->
  name <> "onerror" ->
  assign name h (Mock.Proxy r s op) st = (Mock.Proxy r s op, st)
  /\ deliver (fst (assign "onsuccess" hs (Mock.Proxy r s op) st)) evs st = st
  /\ snd (assign "onerror" he
            (fst (assign "onsuccess" hs (Mock.Proxy r s op) st))
            (snd (assign "onsuccess" hs (Mock.Proxy r s op) st)))
     = snd (assign "onsuccess" hs
              (fst (assign "onerror" he (Mock.Proxy r s op) st))
              (snd (assign "onerror" he (Mock.Proxy r s op) st))).
Proof.
  intros Hs He. repeat split.
  - unfold assign, set. simpl.
    destruct (String.eqb_spec name "onsuccess") as [->|_]; [done|].
    destruct (String.eqb_spec name "onerror") as [->|_]; [done|]. done.
  - simpl. unfold deliver.
    induction evs as [|[n a] evs IH]; [done|]. simpl.
    unfold dispatch at 2. unfold handler_of. simpl.
    by repeat case_match.
  - by destruct s.
Qed.

(** X12. Over the mock, [new] depends on the open toggle alone: the database
    name, the store name and the callback make no difference, its promise is
    never pending, and the only rejection is the one of a failing open. *)
Theorem mock_new_ignores_names (mockOptions : option Mock.MockOptions)
    (databaseName objectStoreName databaseName' objectStoreName' : string)
    (ctor ctor' :
       ObjectStoreConstructor (IDBDatabase Mock.World value nat) Mock.World)
    (w : Mock.World) :
  mockSession mockOptions databaseName objectStoreName ctor w
  = mockSession mockOptions databaseName' objectStoreName' ctor' w
  /\ fst (mockSession mockOptions databaseName objectStoreName ctor w)
     <> Pending
  /\ (forall error,
        fst (mockSession mockOptions databaseName objectStoreName ctor w)
        = Rejected error ->
        opens mockOptions = false
        /\ error = VObject [("error", VString "We messed up: open")]).
Proof.
  rewrite !mockSession_eq. repeat split.
  - simpl. by destruct (opens mockOptions).
  - simpl in H. by destruct (opens mockOptions).
  - simpl in H. destruct (opens mockOptions); [done|]. by injection H as <-.
Qed.

(** ** Properties of the test harness *)

Section HarnessProperties.
Context {Number : Type}.
Variable NumberToString : Number -> string.
Variable ToString : value -> string.
Variable DateToString : value -> value -> value -> value -> value -> string.
Variable JSON_stringify : value -> option string.
Variable Error : string -> value.

Local Abbreviation line := (itemRepr ToString DateToString).
Local Abbreviation present :=
  (presentWhatsInTheDatabase ToString DateToString).
Local Abbreviation run :=
  (runTestCase Number NumberToString ToString DateToString JSON_stringify
     Error).
Local Abbreviation item_of := (newItemOf Number NumberToString).

Lemma fill_container (items : list entry) (children : list Element)
    (kids : list Element) :
  fold_left
    (fun cs item => alter (appendChild (line item)) (length children) cs)
    items (children ++ [node "div" [] "" kids])%list
  = (children ++ [node "div" [] "" (kids ++ map line items)])%list.
Proof.
  revert kids.
  induction items as [|item items IH]; intros kids; simpl.
  - by rewrite app_nil_r.
  - rewrite alter_app_r_alt by lia. rewrite Nat.sub_diag. simpl.
    rewrite IH. by rewrite <- app_assoc.
Qed.

Lemma present_eq (items : list entry) (children : list Element) :
  present items children
  = (tt, (children ++ [node "div" [] "" (map line items)])%list).
Proof.
  unfold presentWhatsInTheDatabase, createElement. f_equal.
  apply (fill_container items children []).
Qed.

(** X13. [presentWhatsInTheDatabase] leaves the children [document.body]
    already has as they are and appends exactly one [div], which holds one
    element per item, in the order of the items; for no item the [div] is
    appended all the same, empty.  Each item's element is a [div] of class
    [beautiful-todo-item] without children. *)
Theorem presentWhatsInTheDatabase_appends_one_container
    (items : list entry) (children : list Element) :
  present items children
  = (tt, (children ++ [node "div" [] "" (map line items)])%list)
  /\ present [] children = (tt, (children ++ [node "div" [] "" []])%list)
  /\ (forall item, exists text,
        line item = node "div" [("class", "beautiful-todo-item")] text []).
Proof.
  split; [apply present_eq | split; [apply (present_eq []) |]].
  intros item. by eexists.
Qed.


Ltac fields :=
  cbn [mock expectedAddResult expectedGetAllResult random heap console body].

Lemma on_heap_add_mock (mockOptions : option Mock.MockOptions) (items : nat)
    (entries : list entry) (env : Env Number) :
  on_heap Number (add (session (store_of mockOptions items)) entries) env
  = (Promise_all (map (inserted mockOptions) entries),
     {| heap := alter (fun a => (a ++ entries)%list) items (heap env);
        console := console env; body := body env |}).
Proof. unfold on_heap. by rewrite add_mock. Qed.

Lemma on_heap_getAll_mock (mockOptions : option Mock.MockOptions)
    (items : nat) (env : Env Number) :
  on_heap Number (getAll (session (store_of mockOptions items))) env
  = (if gets mockOptions then Fulfilled items
     else Rejected (synthetic_error "getAll"),
     {| heap := heap env; console := console env; body := body env |}).
Proof. unfold on_heap. by rewrite getAll_mock. Qed.

Lemma unchecked (expected result : value) :
  (truthy expected = true ->
   JSON_stringify result = JSON_stringify expected) ->
  truthy expected && negb (same_JSON JSON_stringify result expected) = false.
Proof.
  intros H. destruct (truthy expected); [|done]. simpl.
  unfold same_JSON. by rewrite bool_decide_eq_true_2 by auto.
Qed.

Lemma checked (expected result : value) :
  truthy expected = true ->
  JSON_stringify result <> JSON_stringify expected ->
  truthy expected && negb (same_JSON JSON_stringify result expected) = true.
Proof.
  intros -> H. simpl. unfold same_JSON. by rewrite bool_decide_eq_false_2.
Qed.

Section OverTheMock.
Variable mockOptions : option Mock.MockOptions.
Variables databaseName objectStoreName : string.
Variable ctor :
  ObjectStoreConstructor (IDBDatabase Mock.World value nat) Mock.World.
Variables (w w1 : Mock.World).
Variable db : IIndexedDBWrapper Mock.World value nat.
Hypothesis built :
  mockSession mockOptions databaseName objectStoreName ctor w
  = (Fulfilled db, w1).
Variable rnd : Number.
Variables expectedAdd expectedGet : value.
Variable env : Env Number.
Variable old : list entry.
Hypothesis holds : heap env !! length w = Some old.

Local Abbreviation tc :=
  {| mock := Fulfilled db; expectedGetAllResult := expectedGet;
     expectedAddResult := expectedAdd; random := rnd |}.
Local Abbreviation newItem := (item_of rnd).
Local Abbreviation key := (get_prop newItem (key_of mockOptions)).
Local Abbreviation pushed :=
  (alter (fun a => (a ++ [newItem])%list) (length w) (heap env)).

(** X15. A test case over a session of the mock whose toggles succeed
    passes when each expectation is falsy or has the JSON text of the
    result: the item is appended to the instance's array, the two results
    are logged in order, nothing is logged as an error, and the array is
    rendered as one container after the children the body had. *)
Theorem runTestCase_passes :
  adds mockOptions = true ->
  gets mockOptions = true ->
  (truthy expectedAdd = true ->
   JSON_stringify (VArray [key]) = JSON_stringify expectedAdd) ->
  (truthy expectedGet = true ->
   JSON_stringify (array_value (old ++ [newItem])%list)
   = JSON_stringify expectedGet) ->
  run tc env
  = (Fulfilled VUndefined,
     {| heap := pushed;
        console :=
          (console env
           ++ [console_log rnd "add result" (VArray [key]);
               console_log rnd "get all result"
                 (array_value (old ++ [newItem])%list)])%list;
        body :=
          (body env
           ++ [node "div" [] "" (map line (old ++ [newItem])%list)])%list |}).
Proof.
  destruct (mockSession_Fulfilled _ _ _ _ _ _ _ built) as (_ & -> & _).
  intros Ha Hg Hadd Hget.
  unfold runTestCase, added, checkedAdd, checkedGetAll, presented.
  unfold bind, then_, write, read, on_body, ret. fields.
  rewrite on_heap_add_mock. unfold inserted. rewrite Ha.
  cbn [map Promise_all first_rejection all_values]. fields.
  rewrite (unchecked _ _ Hadd). fields.
  rewrite on_heap_getAll_mock, Hg. fields.
  rewrite (pushed_lookup _ _ _ _ holds). cbn [from_option id].
  rewrite (unchecked _ _ Hget). fields.
  rewrite on_heap_getAll_mock, Hg. fields.
  rewrite (pushed_lookup _ _ _ _ holds). cbn [from_option id].
  rewrite present_eq. by rewrite <- app_assoc.
Qed.

(** X16. When the add expectation is truthy and its JSON text differs from
    that of the add result, the test case logs the error [our test failed]
    and stops there: the added item stays in the instance's array, no result
    is logged, and nothing is rendered. *)
Theorem runTestCase_reports_a_wrong_add_expectation :
  adds mockOptions = true ->
  truthy expectedAdd = true ->
  JSON_stringify (VArray [key]) <> JSON_stringify expectedAdd ->
  run tc env
  = (Fulfilled VUndefined,
     {| heap := pushed;
        console :=
          (console env
           ++ [console_error rnd "error occurred in indexedDB"
                 (Error "our test failed")])%list;
        body := body env |}).
Proof.
  destruct (mockSession_Fulfilled _ _ _ _ _ _ _ built) as (_ & -> & _).
  intros Ha Ht Hne.
  unfold runTestCase, added, checkedAdd, checkedGetAll, presented.
  unfold bind, then_, write, read, on_body, ret. fields.
  rewrite on_heap_add_mock. unfold inserted. rewrite Ha.
  cbn [map Promise_all first_rejection all_values]. fields.
  by rewrite (checked _ _ Ht Hne).
Qed.

(** X17. Over a session of the mock whose add toggle fails, the test case
    logs the add payload as an error and nothing else, whatever the
    expectations and the getAll toggle; nothing is rendered, and the item is
    in the instance's array all the same. *)
Theorem runTestCase_with_a_failing_add :
  adds mockOptions = false ->
  run tc env
  = (Fulfilled VUndefined,
     {| heap := pushed;
        console :=
          (console env
           ++ [console_error rnd "error occurred in indexedDB"
                 (VObject [("error", VString "We messed up: add")])])%list;
        body := body env |}).
Proof.
  destruct (mockSession_Fulfilled _ _ _ _ _ _ _ built) as (_ & -> & _).
  intros Ha.
  unfold runTestCase, added, checkedAdd, checkedGetAll, presented.
  unfold bind, then_, write, read, on_body, ret. fields.
  rewrite on_heap_add_mock. unfold inserted. by rewrite Ha.
Qed.

(** X18. Over a session of the mock whose getAll toggle fails and whose add
    toggle succeeds, a test case whose add expectation is met logs the add
    result and then the getAll payload as an error; the getAll expectation
    is never compared and nothing is rendered. *)
Theorem runTestCase_with_a_failing_getAll :
  adds mockOptions = true ->
  gets mockOptions = false ->
  (truthy expectedAdd = true ->
   JSON_stringify (VArray [key]) = JSON_stringify expectedAdd) ->
  run tc env
  = (Fulfilled VUndefined,
     {| heap := pushed;
        console :=
          (console env
           ++ [console_log rnd "add result" (VArray [key]);
               console_error rnd "error occurred in indexedDB"
                 (VObject [("error", VString "We messed up: getAll")])])%list;
        body := body env |}).
Proof.
  destruct (mockSession_Fulfilled _ _ _ _ _ _ _ built) as (_ & -> & _).
  intros Ha Hg Hadd.
  unfold runTestCase, added, checkedAdd, checkedGetAll, presented.
  unfold bind, then_, write, read, on_body, ret. fields.
  rewrite on_heap_add_mock. unfold inserted. rewrite Ha.
  cbn [map Promise_all first_rejection all_values]. fields.
  rewrite (unchecked _ _ Hadd). fields.
  rewrite on_heap_getAll_mock, Hg. fields.
  by rewrite <- app_assoc.
Qed.
End OverTheMock.

(** X19. A test case whose session promise is rejected logs that rejection
    as an error and does nothing else: no expectation is compared, no array
    is touched, nothing is rendered.  A test case whose session promise is
    pending does nothing at all. *)
Theorem runTestCase_without_a_session (tc : TestCaseOptions Number)
    (env : Env Number) :
  (forall err,
      mock tc = Rejected err ->
      run tc env
      = (Fulfilled VUndefined,
         {| heap := heap env;
            console :=
              (console env
               ++ [console_error (random tc) "error occurred in indexedDB"
                     err])%list;
            body := body env |}))
  /\ (mock tc = Pending -> run tc env = (Pending, env)).
Proof.
  split.
  - intros err H.
    unfold runTestCase, added, checkedAdd, checkedGetAll, presented.
    unfold bind, then_, write, read, on_body, ret. by rewrite H.
  - intros H.
    unfold runTestCase, added, checkedAdd, checkedGetAll, presented.
    unfold bind, then_, write, read, on_body, ret. by rewrite H.
Qed.
End HarnessProperties.

(** ** Instances of the further properties *)

Lemma mock_add_appends_witness :
  exists db,
    withWorkingMockedIndexedDB [] = (Fulfilled db, [[]])
    /\ let w3 := snd (add db [otherItem] [[newItem]]) in
       w3 !! 0 = Some [newItem; otherItem]
       /\ (forall other, other <> 0 -> w3 !! other = [[newItem]] !! other)
       /\ length w3 = 1.
Proof.
  exists (session (store_of None 0)). split; [reflexivity|].
  apply (mock_add_appends None "some_named_database" "toDoList"
           toDoListObjectStoreConstructor [] [[]] _ eq_refl
           [otherItem] [newItem] [[newItem]]).
  reflexivity.
Defined.



Lemma mock_instances_are_isolated_witness :
  let db1 := session (store_of None 0) in
  let db2 := session (store_of None 1) in
  let w3 := snd (add db1 [newItem] [[]; []]) in
  let w4 := snd (add db2 [otherItem] w3) in
  w4 !! 0 = Some [newItem] /\ w4 !! 1 = Some [otherItem].
Proof.
  apply (mock_instances_are_isolated None None "some_named_database"
           "toDoList" toDoListObjectStoreConstructor [] [[]] [[]; []]
           _ _ [newItem] [otherItem] eq_refl eq_refl).
Defined.

Lemma mock_add_accepts_duplicates_witness :
  let '(p, w2) := add (session (store_of None 0)) [newItem; newItem] [[]] in
  p = Fulfilled [VString "Walk dog #R"; VString "Walk dog #R"]
  /\ w2 !! 0 = Some [newItem; newItem].
Proof.
  apply (mock_add_accepts_duplicates None "some_named_database" "toDoList"
           toDoListObjectStoreConstructor [] [[]] _ eq_refl newItem 2).
  reflexivity.
Defined.


Lemma mock_failed_add_shows_in_getAll_witness :
  exists db,
    withBrokenAdd [] = (Fulfilled db, [[]])
    /\ let '(p, w2) := add db [newItem] [[]] in
       exists items,
         p = Rejected (VObject [("error", VString "We messed up: add")])
         /\ getAll db w2 = (Fulfilled items, w2)
         /\ w2 !! items = Some [newItem].
Proof.
  eexists. split; [reflexivity|].
  apply (mock_failed_add_shows_in_getAll
           (Some {| Mock.shouldAdd := Some false; Mock.shouldGetAll := None;
                    Mock.shouldOpen := None; Mock.key := "taskTitle" |})
           "some_named_database" "toDoList"
           toDoListObjectStoreConstructor [] [[]] _ eq_refl [newItem]);
    [discriminate | reflexivity | reflexivity].
Defined.

Lemma wrapped_runs_the_lifecycle_witness :
  let count : ObjectStoreConstructor _ Faulty.World :=
    fun _ '(t, o) => (t + 100, o) in
  wrapped (Faulty.request true) (Some count) (0, 0)
  = (Fulfilled (Faulty.db true), (100, 0))
  /\ (isIDBOpenDBRequest (Faulty.request true) = false ->
      snd (wrapped (Faulty.request true) (Some count) (0, 0)) = (0, 0))
  /\ snd (wrapped (Faulty.request true) None (0, 0)) = (0, 0).
Proof.
  exact (wrapped_runs_the_lifecycle (Faulty.request true)
           (Some (fun _ '(t, o) => (t + 100, o))) (0, 0) eq_refl eq_refl).
Defined.

Lemma new_initializes_before_the_transaction_witness :
  let count : ObjectStoreConstructor _ Faulty.World :=
    fun _ '(t, o) => (t + 100, o) in
  new "some_named_database" "toDoList" count (Faulty.impl false) (0, 0)
  = opened "toDoList" (Faulty.db false) (100, 0)
  /\ opened "toDoList" (Faulty.db false) (100, 0)
     = (Rejected (VString "NotFoundError"), (101, 1)).
Proof.
  split; [|reflexivity].
  apply (proj1 (new_initializes_before_the_transaction "some_named_database"
                  "toDoList" (fun _ '(t, o) => (t + 100, o))
                  (Faulty.impl false) (Faulty.request false) (0, 0) (0, 0)
                  [VUndefined] VUndefined eq_refl eq_refl eq_refl eq_refl)).
  reflexivity.
Defined.

Lemma mock_request_fires_on_assignment_only_witness :
  let count : value -> nat -> nat := fun _ n => S n in
  let request : IDBRequest value nat := Mock.Proxy VNull true "add" in
  assign "onupgradeneeded" count request 0 = (request, 0)
  /\ deliver (fst (assign "onsuccess" count request 0))
       [("onsuccess", VUndefined)] 0 = 0
  /\ snd (assign "onerror" count (fst (assign "onsuccess" count request 0))
            (snd (assign "onsuccess" count request 0)))
     = snd (assign "onsuccess" count (fst (assign "onerror" count request 0))
              (snd (assign "onerror" count request 0))).
Proof.
  apply (mock_request_fires_on_assignment_only VNull true "add"
           (fun _ n => S n) (fun _ n => S n) (fun _ n => S n)
           "onupgradeneeded" 0 [("onsuccess", VUndefined)]);
    discriminate.
Defined.

Lemma mock_new_ignores_names_witness :
  fst (withBrokenOpen [])
  = Rejected (VObject [("error", VString "We messed up: open")])
  /\ opens (Some {| Mock.shouldAdd := None; Mock.shouldGetAll := None;
                    Mock.shouldOpen := Some false;
                    Mock.key := "taskTitle" |}) = false
  /\ VObject [("error", VString "We messed up: open")]
     = VObject [("error", VString "We messed up: open")].
Proof.
  split; [reflexivity|].
  apply (proj2 (proj2 (mock_new_ignores_names
                         (Some {| Mock.shouldAdd := None;
                                  Mock.shouldGetAll := None;
                                  Mock.shouldOpen := Some false;
                                  Mock.key := "taskTitle" |})
                         "some_named_database" "toDoList" "" ""
                         toDoListObjectStoreConstructor (fun _ w => w) []))).
  reflexivity.
Defined.

Lemma runTestCase_passes_witness :
  Sample.run
    {| mock := fst (withWorkingMockedIndexedDB []);
       expectedGetAllResult := VArray [VObject Sample.newItem];
       expectedAddResult := VArray [VString "Walk dog #0.42"];
       random := "0.42" |}
    Sample.env
  = (Fulfilled VUndefined,
     {| heap := [[Sample.newItem]];
        console :=
          [console_log "0.42" "add result"
             (VArray [VString "Walk dog #0.42"]);
           console_log "0.42" "get all result"
             (VArray [VObject Sample.newItem])];
        body :=
          [node "div" [] ""
             [node "div" [("class", "beautiful-todo-item")]
                ("Task Title: Walk dog #0.42 | Due: Sun Nov 24 2013 19:30:00"
                 ++ " | Notified: no") []]] |}).
Proof.
  apply (runTestCase_passes Sample.NumberToString Sample.ToString
           Sample.DateToString Sample.JSON_stringify Sample.Error
           None "some_named_database" "toDoList"
           toDoListObjectStoreConstructor [] [[]] _ eq_refl "0.42"
           (VArray [VString "Walk dog #0.42"])
           (VArray [VObject Sample.newItem]) Sample.env [] eq_refl);
    reflexivity.
Defined.

Lemma runTestCase_reports_a_wrong_add_expectation_witness :
  Sample.run
    {| mock := fst (withWorkingMockedIndexedDB []);
       expectedGetAllResult := VArray [];
       expectedAddResult := VArray [];
       random := "0.42" |}
    Sample.env
  = (Fulfilled VUndefined,
     {| heap := [[Sample.newItem]];
        console :=
          [console_error "0.42" "error occurred in indexedDB"
             (VObject [("message", VString "our test failed")])];
        body := [] |}).
Proof.
  apply (runTestCase_reports_a_wrong_add_expectation Sample.NumberToString
           Sample.ToString Sample.DateToString Sample.JSON_stringify
           Sample.Error None "some_named_database" "toDoList"
           toDoListObjectStoreConstructor [] [[]] _ eq_refl "0.42"
           (VArray []) (VArray []) Sample.env);
    [reflexivity | reflexivity | discriminate].
Defined.

Lemma runTestCase_with_a_failing_add_witness :
  Sample.run
    {| mock := fst (withBrokenAdd []);
       expectedGetAllResult := VArray [];
       expectedAddResult := VArray [VObject []];
       random := "0.42" |}
    Sample.env
  = (Fulfilled VUndefined,
     {| heap := [[Sample.newItem]];
        console :=
          [console_error "0.42" "error occurred in indexedDB"
             (VObject [("error", VString "We messed up: add")])];
        body := [] |}).
Proof.
  apply (runTestCase_with_a_failing_add Sample.NumberToString
           Sample.ToString Sample.DateToString Sample.JSON_stringify
           Sample.Error
           (Some {| Mock.shouldAdd := Some false; Mock.shouldGetAll := None;
                    Mock.shouldOpen := None; Mock.key := "taskTitle" |})
           "some_named_database" "toDoList"
           toDoListObjectStoreConstructor [] [[]] _ eq_refl "0.42"
           (VArray [VObject []]) (VArray []) Sample.env).
  reflexivity.
Defined.

Lemma runTestCase_with_a_failing_getAll_witness :
  Sample.run
    {| mock := fst (withBrokenGetAll []);
       expectedGetAllResult := VArray [];
       expectedAddResult := VArray [VString "Walk dog #0.42"];
       random := "0.42" |}
    Sample.env
  = (Fulfilled VUndefined,
     {| heap := [[Sample.newItem]];
        console :=
          [console_log "0.42" "add result"
             (VArray [VString "Walk dog #0.42"]);
           console_error "0.42" "error occurred in indexedDB"
             (VObject [("error", VString "We messed up: getAll")])];
        body := [] |}).
Proof.
  apply (runTestCase_with_a_failing_getAll Sample.NumberToString
           Sample.ToString Sample.DateToString Sample.JSON_stringify
           Sample.Error
           (Some {| Mock.shouldAdd := None; Mock.shouldGetAll := Some false;
                    Mock.shouldOpen := None; Mock.key := "taskTitle" |})
           "some_named_database" "toDoList"
           toDoListObjectStoreConstructor [] [[]] _ eq_refl "0.42"
           (VArray [VString "Walk dog #0.42"]) (VArray []) Sample.env);
    reflexivity.
Defined.

Lemma runTestCase_without_a_session_witness :
  Sample.run
    {| mock := fst (withBrokenOpen []);
       expectedGetAllResult := VArray [];
       expectedAddResult := VArray [VObject []];
       random := "0.42" |}
    Sample.env
  = (Fulfilled VUndefined,
     {| heap := [[]];
        console :=
          [console_error "0.42" "error occurred in indexedDB"
             (VObject [("error", VString "We messed up: open")])];
        body := [] |}).
Proof.
  apply (proj1 (runTestCase_without_a_session Sample.NumberToString
                  Sample.ToString Sample.DateToString Sample.JSON_stringify
                  Sample.Error
                  {| mock := fst (withBrokenOpen []);
                     expectedGetAllResult := VArray [];
                     expectedAddResult := VArray [VObject []];
                     random := "0.42" |}
                  Sample.env)).
  reflexivity.
Defined.
